(** * Real-estate ETL pipeline: the Airflow tasks of [dags/real_state_ETL.py]

    The DAG runs three Python tasks in sequence ([extract_data],
    [transform_data], [load_to_hdfs]) followed by two shell tasks.  This
    development embeds the three Python tasks: the pandas frame they work
    on, the pandas methods they call, and the effects they have on the
    XCom store, the local file system, standard output and the HDFS
    client.  The tasks are stated over any CSV and JSON text formats; the
    JSON codec of pandas is modelled apart, for the hand-over from the
    extractor to the transformer. *)

From Stdlib Require Import ZArith Ascii String Floats Uint63.
From stdpp Require Import base decidable option list list_numbers strings pretty gmap sorting.

Local Open Scope Z_scope.
Local Open Scope string_scope.

(** ** Python values held by a frame *)

(** One cell of a frame.  [NoneV] stands for the object-typed missing
    markers ([None], [pd.NA], [NaT]); a floating-point NaN is the missing
    marker of numeric columns. *)
Inductive cell : Type :=
  | NoneV
  | Int (n : Z)
  | Float (f : float)
  | Bool (b : bool)
  | Str (s : string).

(** [pd.isna] on a scalar. *)
Definition isna (c : cell) : bool :=
  match c with
  | NoneV => true
  | Float f => PrimFloat.is_nan f
  | Int _ | Bool _ | Str _ => false
  end.

(** Exceptions, by class.  [Raised] covers the classes of the external
    libraries (the JSON and CSV parsers, the HDFS client). *)
Inductive exn : Type :=
  | ValueError (msg : string)
  | KeyError (msg : string)
  | IndexError (msg : string)
  | FileNotFoundError (path : string)
  | Raised (cls msg : string).

(** ** Frames *)

(** A row: its index label and its cells, one per column. *)
Record record : Type := mk_record { label : Z; cells : list cell }.

(** A [pandas.DataFrame]: the column labels and the rows in order. *)
Record DataFrame : Type := mk_frame { columns : list string; rows : list record }.

(** Every row has one cell per column. *)
Definition rectangular (df : DataFrame) : Prop :=
  Forall (λ r, length (cells r) = length (columns df)) (rows df).

(** [len(df)] *)
Definition len (df : DataFrame) : Z := Z.of_nat (length (rows df)).

(** [df.shape] *)
Definition shape (df : DataFrame) : Z * Z :=
  (len df, Z.of_nat (length (columns df))).

(** [df.head()]: the first five rows. *)
Definition df_head (df : DataFrame) : DataFrame :=
  {| columns := columns df; rows := take 5 (rows df) |}.

(** [range(start, stop)] *)
Definition range (start stop : Z) : list Z := seqZ start (stop - start).

(** [xs], laid out under the header [hdr], without the fields whose column
    label is one of [labels]. *)
Fixpoint drop_fields {A} (labels hdr : list string) (xs : list A) : list A :=
  match hdr, xs with
  | h :: hdr', x :: xs' =>
      if bool_decide (h ∈ labels) then drop_fields labels hdr' xs'
      else x :: drop_fields labels hdr' xs'
  | _, _ => xs
  end.

(** The field of [xs] under the first column labelled [lbl]. *)
Fixpoint field {A} (lbl : string) (hdr : list string) (xs : list A) : option A :=
  match hdr, xs with
  | h :: hdr', x :: xs' => if bool_decide (h = lbl) then Some x else field lbl hdr' xs'
  | _, _ => None
  end.

(** [df[lbl]] as the list of its values, row by row. *)
Definition column (lbl : string) (df : DataFrame) : list (option cell) :=
  (λ r, field lbl (columns df) (cells r)) <$> rows df.

(** A row, laid out under [hdr], without the cells of the columns [labels]. *)
Definition strip (labels hdr : list string) (r : record) : record :=
  {| label := label r; cells := drop_fields labels hdr (cells r) |}.

(** [repr] of a list of strings, as it stands in pandas's messages. *)
Definition repr_list (l : list string) : string :=
  "[" +:+ String.concat ", " ((λ s, "'" +:+ s +:+ "'") <$> l) +:+ "]".

(** [df.drop(columns=labels)]: with the default [errors='raise'] a label that
    is no column raises [KeyError]; every column carrying one of the labels
    goes. *)
Definition df_drop (labels : list string) (df : DataFrame) : exn + DataFrame :=
  if bool_decide (Forall (λ l, l ∈ columns df) labels) then
    inr {| columns := drop_fields labels (columns df) (columns df);
           rows := strip labels (columns df) <$> rows df |}
  else inl (KeyError (repr_list (filter (λ l, l ∉ columns df) labels)
                      +:+ " not found in axis")).

(** A row with a missing value in some column. *)
Definition has_na (r : record) : bool := existsb isna (cells r).

(** [df.dropna()]: with the defaults [axis=0, how='any'] the rows with a
    missing value in any column go; the others keep their labels and order. *)
Definition df_dropna (df : DataFrame) : DataFrame :=
  {| columns := columns df; rows := filter (λ r, has_na r = false) (rows df) |}.

(** [l[:loc] + [x] + l[loc:]] *)
Definition insert_at {A} (loc : nat) (x : A) (l : list A) : list A :=
  take loc l ++ x :: drop loc l.

(** A row with the cell [v] put at position [loc]. *)
Definition put (loc : nat) (v : cell) (r : record) : record :=
  {| label := label r; cells := insert_at loc v (cells r) |}.

(** The frame a list-like [value] is assigned to: a frame without rows takes
    its row labels from a value that is not empty (0, 1, ... for a list),
    its columns filled with NaN; any other frame stays as it is. *)
Definition ensure_valid_index (value : list cell) (df : DataFrame) : DataFrame :=
  match rows df, value with
  | [], _ :: _ =>
      {| columns := columns df;
         rows := (λ i, mk_record i (replicate (length (columns df)) (Float nan)))
                   <$> seqZ 0 (Z.of_nat (length value)) |}
  | _, _ => df
  end.

(** [df.insert(loc, column, value)] with a list-like [value], assigned by
    position.  With the default [allow_duplicates=False] an existing label
    raises [ValueError]; so does a value of the wrong length; [loc] beyond the
    last column raises [IndexError]. *)
Definition df_insert (loc : nat) (label_ : string) (value : list cell) (df : DataFrame)
  : exn + DataFrame :=
  if bool_decide (label_ ∈ columns df) then
    inl (ValueError ("cannot insert " +:+ label_ +:+ ", already exists"))
  else
    let df := ensure_valid_index value df in
    if bool_decide (length value ≠ length (rows df)) then
      inl (ValueError ("Length of values (" +:+ pretty (length value)
                       +:+ ") does not match length of index ("
                       +:+ pretty (length (rows df)) +:+ ")"))
    else if bool_decide (length (columns df) < loc)%nat then
      inl (IndexError ("index " +:+ pretty loc +:+ " is out of bounds for axis 0 with size "
                       +:+ pretty (length (columns df))))
    else
      inr {| columns := insert_at loc label_ (columns df);
             rows := zip_with (put loc) value (rows df) |}.

(** ** The cleaning steps of [transform_data] on their own *)

(** The frame after the column and the rows with nulls are dropped (the value
    of [df] after line 61). *)
Definition filtered (df : DataFrame) : exn + DataFrame :=
  match (if bool_decide ("Residential Type" ∈ columns df)
         then df_drop ["Residential Type"] df else inr df) with
  | inr df => inr (df_dropna df)
  | inl e => inl e
  end.

(** The frame after [SaleID] is inserted (the value of [df] after line 65). *)
Definition cleaned (df : DataFrame) : exn + DataFrame :=
  match filtered df with
  | inr df => df_insert 0 "SaleID" (Int <$> range 1 (len df + 1)) df
  | inl e => inl e
  end.

(** ** Paths *)

(** [os.path.dirname] on a POSIX path: the part before the last slash, its
    trailing slashes stripped unless it consists of slashes only. *)
Definition is_slash (c : ascii) : bool := bool_decide (c = "/"%char).

Fixpoint lstrip (p : ascii → bool) (l : list ascii) : list ascii :=
  match l with
  | c :: l' => if p c then lstrip p l' else l
  | [] => []
  end.

Definition dirname (p : string) : string :=
  let head := reverse (lstrip (λ c, negb (is_slash c)) (reverse (list_ascii_of_string p))) in
  if forallb is_slash head then string_of_list_ascii head
  else string_of_list_ascii (reverse (lstrip is_slash (reverse head))).

Definition INPUT_FILE : string := "/opt/airflow/inputData/Real_Estate_Sales.csv".
Definition OUTPUT_FILE : string := "/opt/airflow/outputData/Real_Estate_Sales_Cleaned.csv".
Definition HDFS_PATH : string := "/user/hive/warehouse/real_estate/real_estate_sales.csv".

(** ** Output *)

(** An f-string: its literal parts and the values interpolated between them,
    in order. *)
Inductive piece : Type :=
  | Lit (s : string)
  | Num (n : Z)
  | Shape (s : Z * Z)
  | Names (l : list string)
  | Frame (df : DataFrame)
  | Exc (e : exn).

Definition fstring : Type := list piece.

(** The line feed of a Python string literal. *)
Definition LF : string := String "010"%char "".

(** A request made to the HDFS name node through [hdfs.InsecureClient]. *)
Inductive request : Type :=
  | Makedirs (path : string)
  | Upload (path data : string) (overwrite : bool)
  | Status (path : string).

(** The task instance Airflow hands to a callable as [kwargs['ti']]. *)
Record TaskInstance : Type := mk_ti { task_id : string }.
Record kwargs : Type := mk_kwargs { ti : TaskInstance }.

(** What the tasks read and change: the XCom store (by task id and key), the
    files and directories of the worker, standard output, and the HDFS
    cluster (of whatever state [hdfs]) with the requests sent to it. *)
Record world {hdfs : Type} : Type := mk_world {
  xcom : gmap (string * string) string;
  files : gmap string string;
  dirs : gset string;
  stdout : list fstring;
  cluster : hdfs;
  requests : list request
}.
Arguments world : clear implicits.
Arguments mk_world {hdfs}.

(** The world after a line is printed, a value pushed, a file written, a
    directory made, a request answered. *)
Definition printed {hdfs} (s : fstring) (w : world hdfs) : world hdfs :=
  {| xcom := xcom w; files := files w; dirs := dirs w; stdout := stdout w ++ [s];
     cluster := cluster w; requests := requests w |}.

Definition pushed {hdfs} (task key value : string) (w : world hdfs) : world hdfs :=
  {| xcom := <[(task, key) := value]> (xcom w); files := files w; dirs := dirs w;
     stdout := stdout w; cluster := cluster w; requests := requests w |}.

Definition written {hdfs} (path data : string) (w : world hdfs) : world hdfs :=
  {| xcom := xcom w; files := <[path := data]> (files w); dirs := dirs w;
     stdout := stdout w; cluster := cluster w; requests := requests w |}.

Definition made {hdfs} (path : string) (w : world hdfs) : world hdfs :=
  {| xcom := xcom w; files := files w; dirs := {[path]} ∪ dirs w;
     stdout := stdout w; cluster := cluster w; requests := requests w |}.

Definition answered {hdfs} (rq : request) (c : hdfs) (w : world hdfs) : world hdfs :=
  {| xcom := xcom w; files := files w; dirs := dirs w; stdout := stdout w;
     cluster := c; requests := requests w ++ [rq] |}.

(** ** The JSON codec of pandas *)

(** [DataFrame.to_json] and [pd.read_json] as the pipeline calls them, with
    every argument at its default: [orient='columns'],
    [double_precision=10], [convert_axes], [dtype=True] and
    [precise_float=False].  The text is the one the bundled ujson encoder
    writes and its decoder reads.  Where pandas turns labels or values
    into dates, prints a double with [printf], or takes a text for a number
    that is no plain decimal numeral, the functions below answer
    [unmodelled]: no frame of this development is in that case. *)

#[local] Set Warnings "-inexact-float".

Definition unmodelled (what : string) : exn := Raised "Unmodelled" what.

(** *** Doubles *)

(** [(double) z] for [0 <= z < 2^63], and [(unsigned long long) f] for a
    finite [f >= 0]. *)
Definition float_of_Z (z : Z) : float := PrimFloat.of_uint63 (Uint63.of_Z z).

Definition float_trunc (f : float) : Z :=
  match Prim2SF f with
  | S754_finite _ m e => if (0 <=? e)%Z then Z.pos m * 2 ^ e else Z.pos m / 2 ^ (- e)
  | _ => 0
  end.

(** [s] without its trailing zeros. *)
Definition rstrip_zeros (s : string) : string :=
  string_of_list_ascii
    (reverse (lstrip (λ c, bool_decide (c = "0"%char)) (reverse (list_ascii_of_string s)))).

(** [z >= 0] in [n] digits at least. *)
Definition zero_padded (n : nat) (z : Z) : string :=
  let s := pretty z in
  string_of_list_ascii (replicate (n - String.length s) "0"%char) +:+ s.

(** The encoder's text of a finite double, with ten decimals at most
    ([Buffer_AppendDoubleUnchecked]): the whole part, then the fraction
    times 10^10 rounded to an integer, its trailing zeros left out.
    Beyond 10^16 and below 10^-15 the encoder hands over to [printf]. *)
Definition double_text (value : float) : exn + string :=
  let neg := (value <? 0)%float in
  let value := PrimFloat.abs value in
  if ((10000000000000000 - 1 <? value) || (negb (value =? 0) && (value <? 0.000000000000001)))%float
  then inl (unmodelled "double printed in exponent form")
  else
    let whole := float_trunc value in
    let tmp := ((value - float_of_Z whole) * 10000000000)%float in
    let frac := float_trunc tmp in
    let diff := (tmp - float_of_Z frac)%float in
    let frac := if (0.5 <? diff)%float then frac + 1
                else if (diff =? 0.5)%float && ((frac =? 0)%Z || Z.odd frac) then frac + 1
                else frac in
    let '(whole, frac) := if (10000000000 <=? frac)%Z then (whole + 1, 0) else (whole, frac) in
    inr ((if neg then "-" else "") +:+ pretty whole +:+ "."
         +:+ (if (frac =? 0)%Z then "0" else rstrip_zeros (zero_padded 10 frac))).

(** The decoder's negative powers of ten ([g_pow10] of [createDouble]). *)
Definition g_pow10 : list float :=
  [ 1.0; 0.1; 0.01; 0.001; 0.0001; 0.00001; 0.000001; 0.0000001; 0.00000001; 0.000000001;
    0.0000000001; 0.00000000001; 0.000000000001; 0.0000000000001; 0.00000000000001;
    0.000000000000001 ]%float.

(** [createDouble]: the whole part plus the fraction's digits scaled down. *)
Definition createDouble (neg : bool) (intValue frcValue : Z) (frcDecimalCount : nat) : float :=
  ((float_of_Z intValue + float_of_Z frcValue * nth frcDecimalCount g_pow10 0)
   * (if neg then -1 else 1))%float.

(** *** Text *)

Definition QUOTE : ascii := "034"%char.
Definition BACKSLASH : ascii := "\"%char.

Definition hex_digit (n : N) : ascii :=
  nth (N.to_nat n) (list_ascii_of_string "0123456789abcdef") "0"%char.

(** One character inside a JSON string, as the encoder escapes it (with
    [ensure_ascii]; a string is taken as a sequence of code points below
    256). *)
Definition escape_char (c : ascii) : string :=
  let n := N_of_ascii c in
  if bool_decide (c = QUOTE) then String BACKSLASH (String QUOTE "")
  else if bool_decide (c = BACKSLASH) then String BACKSLASH (String BACKSLASH "")
  else if bool_decide (c = "/"%char) then String BACKSLASH "/"
  else if (n =? 8)%N then String BACKSLASH "b"
  else if (n =? 12)%N then String BACKSLASH "f"
  else if (n =? 10)%N then String BACKSLASH "n"
  else if (n =? 13)%N then String BACKSLASH "r"
  else if (n =? 9)%N then String BACKSLASH "t"
  else if (n <? 32)%N || (127 <? n)%N then
    String BACKSLASH
      (String "u" (String "0" (String "0" (String (hex_digit (n / 16)) (String (hex_digit (n mod 16)) "")))))
  else String c "".

Definition json_string (s : string) : string :=
  String QUOTE (String.concat "" (escape_char <$> list_ascii_of_string s)) +:+ String QUOTE "".

(** A value of a frame, once it is in JSON. *)
Inductive scalar : Type :=
  | JNull
  | JBool (b : bool)
  | JInt (n : Z)
  | JDouble (f : float)
  | JStr (s : string).

(** The JSON text of one cell: a missing value, NaN and the infinities are
    [null]; an integer must fit 64 bits. *)
Definition cell_text (c : cell) : exn + string :=
  match c with
  | NoneV => inr "null"
  | Bool b => inr (if b then "true" else "false")
  | Int n =>
      if (- 2 ^ 63 <=? n)%Z && (n <? 2 ^ 63)%Z then inr (pretty n)
      else inl (Raised "OverflowError" "int too big to convert")
  | Float f =>
      if PrimFloat.is_nan f || PrimFloat.is_infinity f then inr "null" else double_text f
  | Str s => inr (json_string s)
  end.

(** The first exception of a list of results, or all the values. *)
Fixpoint all_ok {A} (l : list (exn + A)) : exn + list A :=
  match l with
  | [] => inr []
  | inl e :: _ => inl e
  | inr x :: l' => match all_ok l' with inr xs => inr (x :: xs) | inl e => inl e end
  end.

(** A JSON object of the members [kvs], each already a text. *)
Definition json_object (kvs : list (string * string)) : string :=
  "{" +:+ String.concat "," ((λ kv, json_string kv.1 +:+ ":" +:+ kv.2) <$> kvs) +:+ "}".

(** The text of a frame whose labels do not repeat: an object of the
    columns, each an object of its values by row label. *)
Definition pandas_json_text (df : DataFrame) : exn + string :=
  let column_text (j : nat) : exn + string :=
    match all_ok ((λ r, cell_text (default NoneV (cells r !! j))) <$> rows df) with
    | inr texts => inr (json_object (zip ((λ r, pretty (label r)) <$> rows df) texts))
    | inl e => inl e
    end in
  match all_ok (column_text <$> seq 0 (length (columns df))) with
  | inr texts => inr (json_object (zip (columns df) texts))
  | inl e => inl e
  end.

(** *** Reading the text back *)

Definition digit_of (c : ascii) : option Z :=
  let n := Z.of_N (N_of_ascii c) in
  if (48 <=? n)%Z && (n <=? 57)%Z then Some (n - 48) else None.

Definition hex_of (c : ascii) : option N :=
  let n := N_of_ascii c in
  if (48 <=? n)%N && (n <=? 57)%N then Some (n - 48)%N
  else if (97 <=? n)%N && (n <=? 102)%N then Some (n - 87)%N
  else if (65 <=? n)%N && (n <=? 70)%N then Some (n - 55)%N
  else None.

(** The characters of a JSON string up to its closing quote, and what
    follows it. *)
Fixpoint parse_chars (l : list ascii) : option (string * list ascii) :=
  match l with
  | [] => None
  | c :: l' =>
      if bool_decide (c = QUOTE) then Some ("", l')
      else if bool_decide (c = BACKSLASH) then
        match l' with
        | e :: l'' =>
            let plain (c' : ascii) :=
              match parse_chars l'' with
              | Some (s, rest) => Some (String c' s, rest)
              | None => None
              end in
            if bool_decide (e = "u"%char) then
              match l'' with
              | h1 :: h2 :: h3 :: h4 :: l''' =>
                  match hex_of h1, hex_of h2, hex_of h3, hex_of h4, parse_chars l''' with
                  | Some 0%N, Some 0%N, Some a, Some b, Some (s, rest) =>
                      Some (String (ascii_of_N (16 * a + b)) s, rest)
                  | _, _, _, _, _ => None
                  end
              | _ => None
              end
            else if bool_decide (e = "b"%char) then plain "008"%char
            else if bool_decide (e = "f"%char) then plain "012"%char
            else if bool_decide (e = "n"%char) then plain "010"%char
            else if bool_decide (e = "r"%char) then plain "013"%char
            else if bool_decide (e = "t"%char) then plain "009"%char
            else if bool_decide (e = QUOTE) || bool_decide (e = BACKSLASH)
                    || bool_decide (e = "/"%char) then plain e
            else None
        | [] => None
        end
      else
        match parse_chars l' with
        | Some (s, rest) => Some (String c s, rest)
        | None => None
        end
  end.

(** The digits at the head of [l]: their value on top of [acc], how many
    there are, and what follows them. *)
Fixpoint parse_digits (acc : Z) (count : nat) (l : list ascii) : Z * nat * list ascii :=
  match l with
  | c :: l' =>
      match digit_of c with
      | Some d => parse_digits (10 * acc + d) (S count) l'
      | None => (acc, count, l)
      end
  | [] => (acc, count, l)
  end.

(** The digits of a fraction: the decoder takes the first fifteen and
    passes over the others. *)
Fixpoint parse_fraction (acc : Z) (count : nat) (l : list ascii) : Z * nat * list ascii :=
  match l with
  | c :: l' =>
      match digit_of c with
      | Some d =>
          if (count <? 15)%nat then parse_fraction (10 * acc + d) (S count) l'
          else parse_fraction acc count l'
      | None => (acc, count, l)
      end
  | [] => (acc, count, l)
  end.

(** [decode_numeric]: an integer when no point follows the digits, a double
    otherwise. *)
Definition parse_number (l : list ascii) : exn + (scalar * list ascii) :=
  let '(neg, l) := match l with
                   | c :: l' => if bool_decide (c = "-"%char) then (true, l') else (false, l)
                   | [] => (false, l)
                   end in
  let '(intValue, _, rest) := parse_digits 0 0 l in
  if ((if neg then 2 ^ 63 else 2 ^ 63 - 1) <? intValue)%Z then
    inl (ValueError (if neg then "Value is too small" else "Value is too big"))
  else
    match rest with
    | c :: rest' =>
        if bool_decide (c = "."%char) then
          let '(frcValue, count, rest'') := parse_fraction 0 0 rest' in
          match rest'' with
          | c' :: _ =>
              if bool_decide (c' = "e"%char) || bool_decide (c' = "E"%char)
              then inl (unmodelled "number in exponent form")
              else inr (JDouble (createDouble neg intValue frcValue count), rest'')
          | [] => inr (JDouble (createDouble neg intValue frcValue count), rest'')
          end
        else if bool_decide (c = "e"%char) || bool_decide (c = "E"%char)
        then inl (unmodelled "number in exponent form")
        else inr (JInt (if neg then - intValue else intValue), rest)
    | [] => inr (JInt (if neg then - intValue else intValue), rest)
    end.

Definition expected : exn := ValueError "Expected object or value".

(** One value of a column. *)
Definition parse_scalar (l : list ascii) : exn + (scalar * list ascii) :=
  match l with
  | "n"%char :: "u"%char :: "l"%char :: "l"%char :: rest => inr (JNull, rest)
  | "t"%char :: "r"%char :: "u"%char :: "e"%char :: rest => inr (JBool true, rest)
  | "f"%char :: "a"%char :: "l"%char :: "s"%char :: "e"%char :: rest => inr (JBool false, rest)
  | c :: rest =>
      if bool_decide (c = QUOTE) then
        match parse_chars rest with
        | Some (s, rest') => inr (JStr s, rest')
        | None => inl (ValueError ("Unmatched ''" +:+ String QUOTE "' when decoding 'string'"))
        end
      else if bool_decide (c = "-"%char) || bool_decide (is_Some (digit_of c))
      then parse_number l
      else inl expected
  | [] => inl expected
  end.

(** A Python [dict]: a key keeps the place of its first insertion and the
    value of its last. *)
Fixpoint dict_set {A} (k : string) (v : A) (d : list (string * A)) : list (string * A) :=
  match d with
  | [] => [(k, v)]
  | (k', v') :: d' => if bool_decide (k' = k) then (k, v) :: d' else (k', v') :: dict_set k v d'
  end.

Fixpoint dict_get {A} (k : string) (d : list (string * A)) : option A :=
  match d with
  | [] => None
  | (k', v) :: d' => if bool_decide (k' = k) then Some v else dict_get k d'
  end.

(** The members of an object after its opening brace, each value read by
    [value]; [fuel] bounds the number of members. *)
Fixpoint parse_members {A} (value : list ascii → exn + (A * list ascii)) (fuel : nat)
    (d : list (string * A)) (l : list ascii) : exn + (list (string * A) * list ascii) :=
  match fuel with
  | O => inl expected
  | S fuel =>
      match l with
      | c :: l' =>
          if bool_decide (c = QUOTE) then
            match parse_chars l' with
            | Some (k, c' :: l'') =>
                if bool_decide (c' = ":"%char) then
                  match value l'' with
                  | inr (v, c'' :: rest) =>
                      if bool_decide (c'' = ","%char)
                      then parse_members value fuel (dict_set k v d) rest
                      else if bool_decide (c'' = "}"%char) then inr (dict_set k v d, rest)
                      else inl expected
                  | inr (_, []) => inl expected
                  | inl e => inl e
                  end
                else inl expected
            | _ => inl expected
            end
          else inl expected
      | [] => inl expected
      end
  end.

(** An object: [{}], or members between braces. *)
Definition parse_object {A} (value : list ascii → exn + (A * list ascii)) (l : list ascii)
  : exn + (list (string * A) * list ascii) :=
  match l with
  | "{"%char :: "}"%char :: rest => inr ([], rest)
  | "{"%char :: rest => parse_members value (length rest) [] rest
  | _ => inl expected
  end.

(** [ujson.loads] on the text of a frame: the columns by label, each the
    values by row label. *)
Definition loads (s : string) : exn + list (string * list (string * scalar)) :=
  match parse_object (parse_object parse_scalar) (list_ascii_of_string s) with
  | inr (d, []) => inr d
  | inr (_, _ :: _) => inl (ValueError "Trailing data")
  | inl e => inl e
  end.

(** *** From the decoded objects to a frame *)

(** The keys of the inner objects in the order of their first appearance:
    the row labels, as texts. *)
Definition union_keys (d : list (string * list (string * scalar))) : list string :=
  foldl (λ acc col, foldl (λ acc kv, if bool_decide (kv.1 ∈ acc) then acc
                                     else (acc ++ [kv.1])%list)
                      acc col.2) [] d.

(** An integer numeral: digits, after a minus sign or not. *)
Definition int_of_string (s : string) : option Z :=
  let l := list_ascii_of_string s in
  let '(neg, digits) := match l with
                        | c :: l' => if bool_decide (c = "-"%char) then (true, l') else (false, l)
                        | [] => (false, l)
                        end in
  match digits, parse_digits 0 0 digits with
  | _ :: _, (n, _, []) => Some (if neg then - n else n)
  | _, _ => None
  end.

(** A plain decimal numeral: digits, a point and digits or not, after a
    minus sign or not. *)
Definition float_of_string (s : string) : option float :=
  let l := list_ascii_of_string s in
  let '(neg, digits) := match l with
                        | c :: l' => if bool_decide (c = "-"%char) then (true, l') else (false, l)
                        | [] => (false, l)
                        end in
  match digits, parse_digits 0 0 digits with
  | _ :: _, (n, _, []) => Some (float_of_Z n * (if neg then -1 else 1))%float
  | _ :: _, (n, S _, c :: rest) =>
      if bool_decide (c = "."%char) then
        match parse_digits 0 0 rest with
        | (m, k, []) => Some (float_of_Z (n * 10 ^ Z.of_nat k + m) / float_of_Z (10 ^ Z.of_nat k)
                              * (if neg then -1 else 1))%float
        | _ => None
        end
      else None
  | _, _ => None
  end.

(** A text that Python's [float] may accept although it is no plain
    decimal numeral: it is made of the characters of numerals, exponents,
    blanks and underscores, or spells [nan], [inf] or [infinity]. *)
Definition numeral_like (s : string) : bool :=
  let l := list_ascii_of_string s in
  let lower (c : ascii) : ascii :=
    let n := N_of_ascii c in if (65 <=? n)%N && (n <=? 90)%N then ascii_of_N (n + 32) else c in
  let bare := filter (λ c, c ∉ list_ascii_of_string "+- ") (lower <$> l) in
  (existsb (λ c, bool_decide (is_Some (digit_of c))) l
   && forallb (λ c, bool_decide (c ∈ list_ascii_of_string "0123456789+-.eE_ ")
                    || (N_of_ascii c <? 32)%N) l)
  || bool_decide (string_of_list_ascii bare ∈ ["nan"; "inf"; "infinity"]).

(** Labels that pandas would take for seconds since 1970: numbers that
    are all beyond [min_stamp]. *)
Definition stamp_like (labels : list Z) : bool :=
  negb (bool_decide (labels = [])) && forallb (λ n, (31536000 <? n)%Z) labels.

(** A column name that pandas takes for the name of a date column. *)
Definition date_name (name : string) : bool :=
  let lower (c : ascii) : ascii :=
    let n := N_of_ascii c in if (65 <=? n)%N && (n <=? 90)%N then ascii_of_N (n + 32) else c in
  let l := lower <$> list_ascii_of_string name in
  bool_decide (list_ascii_of_string "_at" `suffix_of` l)
  || bool_decide (list_ascii_of_string "_time" `suffix_of` l)
  || bool_decide (list_ascii_of_string "timestamp" `prefix_of` l)
  || bool_decide (string_of_list_ascii l ∈ ["modified"; "date"; "datetime"]).

(** A double that stands for an integer of 64 bits. *)
Definition integral (f : float) : option Z :=
  if PrimFloat.is_nan f || PrimFloat.is_infinity f then None
  else
    let n := float_trunc (PrimFloat.abs f) in
    if (float_of_Z n =? PrimFloat.abs f)%float && (n <? 2 ^ 63)%Z
    then Some (if (f <? 0)%float then - n else n) else None.

(** A column of doubles after [read_json]'s conversion: integers when every
    value stands for one, doubles otherwise. *)
Definition coerce_floats (col : list float) : list cell :=
  match mapM integral col with
  | Some ints => if bool_decide (col = []) then [] else Int <$> ints
  | None => Float <$> col
  end.

(** The cells of a column, from its decoded values.  The frame is first
    built from the values as they are: a column of booleans, of integers,
    of doubles (numbers among which a double or a missing value stands), or
    of objects.  Then [read_json] converts: a column of objects all of
    which turn into doubles (numbers, booleans, numerals in text, missing
    values) becomes a column of doubles, and a column of doubles that all
    stand for integers becomes a column of integers. *)
Definition column_cells (col : list scalar) : exn + list cell :=
  let number (v : scalar) : option float :=
    match v with
    | JInt n => Some (float_of_Z (Z.abs n) * (if (n <? 0)%Z then -1 else 1))%float
    | JDouble f => Some f
    | JNull => Some nan
    | JBool _ | JStr _ => None
    end in
  let as_object (v : scalar) : cell :=
    match v with
    | JNull => NoneV
    | JBool b => Bool b
    | JInt n => Int n
    | JDouble f => Float f
    | JStr s => Str s
    end in
  let accepted (v : scalar) : option float :=
    match v with
    | JInt _ | JDouble _ | JNull => number v
    | JBool b => Some (if b then 1 else 0)%float
    | JStr s => float_of_string s
    end in
  if forallb (λ v, match v with JBool _ => true | _ => false end) col then inr (as_object <$> col)
  else if forallb (λ v, match v with JInt _ => true | _ => false end) col
  then inr (as_object <$> col)
  else if existsb (λ v, match v with
                        | JStr s => numeral_like s && negb (bool_decide (is_Some (float_of_string s)))
                        | _ => false
                        end) col
  then inl (unmodelled "text that may be a number")
  else
    match mapM accepted col with
    | Some floats => inr (coerce_floats floats)
    | None => inr (as_object <$> col)
    end.

(** The order of texts, character by character. *)
Definition text_le (a b : string) : Prop := String.leb a b.

(** The labels of an axis after [convert_axes]: integers when every label
    is an integer numeral. *)
Definition axis_labels (keys : list string) : exn + (list Z + list string) :=
  match mapM int_of_string keys with
  | Some ns =>
      if stamp_like ns then inl (unmodelled "labels taken for dates") else inr (inl ns)
  | None =>
      if forallb (λ k, numeral_like k || bool_decide (is_Some (float_of_string k))) keys
      then inl (unmodelled "labels that are no integers") else inr (inr keys)
  end.

(** [pd.read_json(text)].  The row labels are the keys of the inner
    objects, in the order of the text or, with [sorted], in the order of
    the keys as texts (pandas does not promise either: an orient that
    encodes to a JSON object keeps no order of labels). *)
Definition pandas_read_json (sorted : bool) (text : string) : exn + DataFrame :=
  match loads text with
  | inl e => inl e
  | inr d =>
      let keys := if sorted then merge_sort text_le (union_keys d) else union_keys d in
      match axis_labels keys, axis_labels d.*1 with
      | inl e, _ | _, inl e => inl e
      | inr (inr _), _ => inl (unmodelled "row labels that are no integers")
      | inr (inl labels), inr names =>
          let names := match names with
                       | inl ns => if bool_decide (ns = []) then [] else pretty <$> ns
                       | inr names => names
                       end in
          if existsb date_name names && negb (bool_decide (keys = []))
          then inl (unmodelled "column taken for dates")
          else
            match all_ok ((λ col, column_cells
                                    ((λ k, default (JDouble nan) (dict_get k col.2)) <$> keys))
                            <$> d) with
            | inl e => inl e
            | inr cols =>
                inr {| columns := names;
                       rows := imap (λ i n, mk_record n ((λ col, default NoneV (col !! i)) <$> cols))
                                 labels |}
            end
      end
  end.

(** ** Sample data *)

(** Five sales; the second has no town, the third no residential type. *)
Definition sample_sales : DataFrame :=
  {| columns := ["List_Year"; "Town"; "Sale_Amount"; "Residential Type"];
     rows := [ mk_record 0 [Int 2020; Str "Ansonia"; Int 325000; Str "Single Family"];
               mk_record 1 [Int 2020; NoneV; Int 430000; Str "Condo"];
               mk_record 2 [Int 2021; Str "Avon"; Float 179900.5%float; Float nan];
               mk_record 3 [Int 2021; Str "Berlin"; Int 248400; Str "Condo"];
               mk_record 4 [Int 2022; Str "Bethel"; Int 239900; Str "Two Family"] ] |}.

(** What the transformer makes of [sample_sales]. *)
Definition sample_sales_cleaned : DataFrame :=
  {| columns := ["SaleID"; "List_Year"; "Town"; "Sale_Amount"];
     rows := [ mk_record 0 [Int 1; Int 2020; Str "Ansonia"; Int 325000];
               mk_record 2 [Int 2; Int 2021; Str "Avon"; Float 179900.5%float];
               mk_record 3 [Int 3; Int 2021; Str "Berlin"; Int 248400];
               mk_record 4 [Int 4; Int 2022; Str "Bethel"; Int 239900] ] |}.

(** Two sales with nothing missing and no residential type. *)
Definition sample_clean : DataFrame :=
  {| columns := ["List_Year"; "Town"];
     rows := [ mk_record 0 [Int 2020; Str "Ansonia"]; mk_record 1 [Int 2021; Str "Avon"] ] |}.

(** What the transformer makes of [sample_clean]. *)
Definition sample_clean_cleaned : DataFrame :=
  {| columns := ["SaleID"; "List_Year"; "Town"];
     rows := [ mk_record 0 [Int 1; Int 2020; Str "Ansonia"];
               mk_record 1 [Int 2; Int 2021; Str "Avon"] ] |}.

(** A header and no sale. *)
Definition sample_empty : DataFrame :=
  {| columns := ["List_Year"; "Town"; "Residential Type"]; rows := [] |}.

(** Two sales under the same row label, as [read_csv] labels them when
    the lines of the file have one field more than the header and start
    with the same value. *)
Definition sample_repeated : DataFrame :=
  {| columns := ["Town"; "Sale_Amount"];
     rows := [ mk_record 2020 [Str "Ansonia"; Int 325000];
               mk_record 2020 [Str "Avon"; Int 179900] ] |}.

Definition sample_repeated_csv : string :=
  "Town,Sale_Amount" +:+ LF +:+ "2020,Ansonia,325000" +:+ LF +:+ "2020,Avon,179900" +:+ LF.

(** Stand-ins for the text formats: a payload names its frame; the JSON
    writer gives the number of rows for a text; a CSV line is its fields
    between commas. *)
Definition sample_payloads : gmap string DataFrame :=
  {[ "sales" := sample_sales; "clean" := sample_clean;
     "cleaned" := sample_clean_cleaned; "empty" := sample_empty;
     "repeated" := sample_repeated ]}.

Definition sample_read_json (s : string) : exn + DataFrame :=
  match sample_payloads !! s with
  | Some df => inr df
  | None => inl (ValueError "Expected object or value")
  end.

Definition sample_to_json (df : DataFrame) : exn + string :=
  inr ("frame of " +:+ pretty (len df) +:+ " rows").

Definition sample_csv_value (c : cell) : string :=
  match c with
  | NoneV => ""
  | Int n => pretty n
  | Float f => if PrimFloat.is_nan f then "" else "<float>"
  | Bool b => if b then "True" else "False"
  | Str s => s
  end.

Definition sample_csv_row (fields : list string) : string :=
  String.concat "," fields +:+ LF.

(** Stand-ins for the cluster: remote files by path; a name node that
    refuses to create directories; uploads that go through, or are refused. *)
Definition sample_makedirs (path : string) (c : gmap string string)
  : (exn + unit) * gmap string string :=
  (inl (Raised "HdfsError" "mkdirs refused"), c).

Definition sample_write (path data : string) (overwrite : bool) (c : gmap string string)
  : (exn + unit) * gmap string string :=
  if overwrite || bool_decide (c !! path = None) then (inr tt, <[path := data]> c)
  else (inl (Raised "HdfsError" "remote file exists"), c).

Definition sample_refuse (path data : string) (overwrite : bool) (c : gmap string string)
  : (exn + unit) * gmap string string :=
  (inl (Raised "HdfsError" "write refused"), c).

Definition sample_status (path : string) (c : gmap string string)
  : (exn + Z) * gmap string string :=
  match c !! path with
  | Some data => (inr (Z.of_nat (String.length data)), c)
  | None => (inl (Raised "HdfsError" "file not found"), c)
  end.

(** A worker with nothing but the given payload of the extractor. *)
Definition sample_world (payload : option string) : world (gmap string string) :=
  mk_world (from_option (λ s, {[ ("Extract_Data", "raw_data") := s ]}) ∅ payload)
           ∅ ∅ [] ∅ [].

(** A worker with nothing but the output file. *)
Definition sample_loaded : world (gmap string string) :=
  mk_world ∅ {[ OUTPUT_FILE := "SaleID,Town" ]} ∅ [] ∅ [].

Definition sample_kwargs : kwargs := mk_kwargs (mk_ti "Transform_Data").

(** [sample_sales] with other residential types. *)
Definition sample_sales_retyped : DataFrame :=
  {| columns := ["List_Year"; "Town"; "Sale_Amount"; "Residential Type"];
     rows := [ mk_record 0 [Int 2020; Str "Ansonia"; Int 325000; Str "Condo"];
               mk_record 1 [Int 2020; NoneV; Int 430000; NoneV];
               mk_record 2 [Int 2021; Str "Avon"; Float 179900.5%float; Str "Four Family"];
               mk_record 3 [Int 2021; Str "Berlin"; Int 248400; Float nan];
               mk_record 4 [Int 2022; Str "Bethel"; Int 239900; Str "Condo"] ] |}.


(** A stand-in for the CSV parser: an empty text has no columns to parse;
    any other text holds the five sales. *)
Definition sample_parse_csv (text : string) : exn + DataFrame :=
  if bool_decide (text = "") then inl (Raised "EmptyDataError" "No columns to parse from file")
  else inr sample_sales.

(** A stand-in for the JSON writer whose payload names the five sales. *)
Definition sample_named_json (df : DataFrame) : exn + string := inr "sales".

(** A name node that does not answer status requests. *)
Definition sample_status_down (path : string) (c : gmap string string)
  : (exn + Z) * gmap string string :=
  (inl (Raised "HdfsError" "status unavailable"), c).

(** A worker with nothing but the input file. *)
Definition sample_input : world (gmap string string) :=
  mk_world ∅ {[ INPUT_FILE := "List_Year,Town,Sale_Amount,Residential Type" ]} ∅ [] ∅ [].






(** A worker with nothing but the file of the two sales, and a stand-in for
    the CSV parser that knows this file. *)
Definition sample_repeated_input : world (gmap string string) :=
  mk_world ∅ {[ INPUT_FILE := sample_repeated_csv ]} ∅ [] ∅ [].

Definition sample_parse_repeated (text : string) : exn + DataFrame :=
  if bool_decide (text = sample_repeated_csv) then inr sample_repeated
  else inl (Raised "ParserError" "another file").

(** A payload of two columns without rows, labelled 1 and 01. *)
Definition sample_ones_json : string :=
  "{" +:+ json_string "1" +:+ ":{}," +:+ json_string "01" +:+ ":{}}".



(** Eleven sales, labelled 0 to 10. *)
Definition sample_eleven : DataFrame :=
  {| columns := ["Sale_Amount"];
     rows := (λ i, mk_record i [Int (100000 + i)]) <$> seqZ 0 11 |}.

(** ** The tasks *)

Section Pipeline.

(** The text formats are pandas's and the [csv] module's.  [parse_csv] is
    [pd.read_csv] on the text of a file; [json_text] is the JSON text the
    frame's writer produces once it has checked the labels (or the exception
    its encoder raises) and [read_json] is [pd.read_json] on a text;
    [csv_value] is the text of one value in a CSV file and [csv_row] the
    line [csv.writer] writes for a record. *)
Variable parse_csv : string → exn + DataFrame.
Variable json_text : DataFrame → exn + string.
Variable read_json : string → exn + DataFrame.
Variable csv_value : cell → string.
Variable csv_row : list string → string.

(** The HDFS cluster behind the client: its state and its answers to the
    three requests the loader makes. *)
Variable hdfs : Type.
Variable hdfs_makedirs : string → hdfs → (exn + unit) * hdfs.
Variable hdfs_write : string → string → bool → hdfs → (exn + unit) * hdfs.
Variable hdfs_status : string → hdfs → (exn + Z) * hdfs.

(** A computation: it ends with a value or a raised exception, and the
    effects it had up to there stay. *)
Definition M (A : Type) : Type := world hdfs → (exn + A) * world hdfs.

#[local] Instance M_ret : MRet M := λ A a w, (inr a, w).
#[local] Instance M_bind : MBind M := λ A B k m w,
  match m w with
  | (inr a, w') => k a w'
  | (inl e, w') => (inl e, w')
  end.

Definition raise {A} (e : exn) : M A := λ w, (inl e, w).

(** [try: body except Exception as e: handler e] *)
Definition try_except {A} (body : M A) (handler : exn → M A) : M A := λ w,
  match body w with
  | (inl e, w') => handler e w'
  | (inr a, w') => (inr a, w')
  end.

Definition lift {A} (r : exn + A) : M A := λ w, (r, w).

Definition print (s : fstring) : M unit := λ w, (inr tt, printed s w).

(** [ti.xcom_push(key=key, value=value)] *)
Definition xcom_push (ti : TaskInstance) (key value : string) : M unit := λ w,
  (inr tt, pushed (task_id ti) key value w).

(** [ti.xcom_pull(key=key, task_ids=task_ids)]: [None] when nothing was
    pushed. *)
Definition xcom_pull (ti : TaskInstance) (key task_ids : string) : M (option string) := λ w,
  (inr (xcom w !! (task_ids, key)), w).

(** [open(path, 'rb')] followed by reading the file. *)
Definition open_rb (path : string) : M string := λ w,
  match files w !! path with
  | Some data => (inr data, w)
  | None => (inl (FileNotFoundError path), w)
  end.

(** [os.makedirs(path, exist_ok=True)].  The worker's disk is taken to
    accept directories and files: no permission or space errors here. *)
Definition os_makedirs (path : string) : M unit := λ w, (inr tt, made path w).

(** Writing [data] to the file at [path], replacing what was there. *)
Definition write_file (path data : string) : M unit := λ w, (inr tt, written path data w).

(** [pd.read_csv(path)] *)
Definition pd_read_csv (path : string) : M DataFrame :=
  text ← open_rb path; lift (parse_csv text).

(** [df.to_json()]: with the default [orient='columns'] the row labels and
    the column labels become the keys of JSON objects, and the writer
    raises [ValueError] when the row labels repeat, or else when the column
    labels do. *)
Definition to_json (df : DataFrame) : exn + string :=
  if bool_decide (NoDup (label <$> rows df)) then
    if bool_decide (NoDup (columns df)) then json_text df
    else inl (ValueError "DataFrame columns must be unique for orient='columns'.")
  else inl (ValueError "DataFrame index must be unique for orient='columns'.").

(** The text [df.to_csv] writes: the header line when [header] is set, then
    one line per row; with [index] set every line starts with the row label
    (under an empty header name). *)
Definition csv_text (df : DataFrame) (header index : bool) : string :=
  (if header then csv_row ((if index then [""] else []) ++ columns df) else "")
  +:+ String.concat ""
        ((λ r, csv_row ((if index then [csv_value (Int (label r))] else [])
                        ++ (csv_value <$> cells r))) <$> rows df).

(** [df.to_csv(path, index=index)]; [header] defaults to [True]. *)
Definition df_to_csv (df : DataFrame) (path : string) (index : bool) : M unit :=
  write_file path (csv_text df true index).

(** The client's methods: the request goes out and the cluster answers. *)
Definition send {A} (rq : request) (answer : hdfs → (exn + A) * hdfs) : M A := λ w,
  let '(r, c) := answer (cluster w) in (r, answered rq c w).

Definition client_makedirs (path : string) : M unit :=
  send (Makedirs path) (hdfs_makedirs path).
Definition client_write (path data : string) (overwrite : bool) : M unit :=
  send (Upload path data overwrite) (hdfs_write path data overwrite).
Definition client_status (path : string) : M Z :=
  send (Status path) (hdfs_status path).

(** Extract data from CSV file.  (The argument [df.to_json()] of the push
    is evaluated before the push: when it raises, nothing is pushed.) *)
Definition extract_data (kw : kwargs) : M fstring :=
  print [Lit "Starting data extraction..."];;
  df ← pd_read_csv INPUT_FILE;
  print [Lit "Extracted "; Num (len df); Lit " rows"];;
  print [Lit "Columns: "; Names (columns df)];;
  raw_data ← lift (to_json df);
  xcom_push (ti kw) "raw_data" raw_data;;
  mret [Lit "Extracted "; Num (len df); Lit " rows successfully"].

(** Transform data: drop columns, remove nulls, add SaleID.  ([df.insert]
    changes the frame in place; the frame is the fresh one [dropna] returned
    and no other name refers to it, so rebinding [df] says the same.) *)
Definition transform_data (kw : kwargs) : M fstring :=
  print [Lit "Starting data transformation..."];;
  let ti := ti kw in
  raw_data_json ← xcom_pull ti "raw_data" "Extract_Data";
  match raw_data_json with
  | None | Some "" =>
      raise (ValueError "No data received from Extract_Data task via XCom")
  | Some raw_data_json =>
      df ← lift (read_json raw_data_json);
      print [Lit "Initial shape: "; Shape (shape df)];;
      df ← (if bool_decide ("Residential Type" ∈ columns df) then
              df ← lift (df_drop ["Residential Type"] df);
              print [Lit "Dropped 'Residential Type' column"];;
              mret df
            else mret df);
      let initial_count := len df in
      let df := df_dropna df in
      print [Lit "Dropped "; Num (initial_count - len df); Lit " rows with null values"];;
      df ← lift (df_insert 0 "SaleID" (Int <$> range 1 (len df + 1)) df);
      print [Lit "Added SaleID column"];;
      print [Lit "Final shape: "; Shape (shape df)];;
      print [Lit "Columns: "; Names (columns df)];;
      print [Lit (LF +:+ "First 5 rows:" +:+ LF); Frame (df_head df)];;
      os_makedirs (dirname OUTPUT_FILE);;
      df_to_csv df OUTPUT_FILE false;;
      print [Lit "Saved transformed data to "; Lit OUTPUT_FILE];;
      transformed_data ← lift (to_json df);
      xcom_push ti "transformed_data" transformed_data;;
      mret [Lit "Transformed "; Num (len df); Lit " rows successfully"]
  end.

(** Load transformed data to HDFS *)
Definition load_to_hdfs (kw : kwargs) : M fstring :=
  print [Lit "Starting data load to HDFS..."];;
  print [Lit "Uploading "; Lit OUTPUT_FILE; Lit " to HDFS path "; Lit HDFS_PATH];;
  let hdfs_dir := dirname HDFS_PATH in
  try_except
    (client_makedirs hdfs_dir;;
     print [Lit "Created directory: "; Lit hdfs_dir])
    (λ e, print [Lit "Directory "; Lit hdfs_dir; Lit " may already exist: "; Exc e]);;
  try_except
    (f ← open_rb OUTPUT_FILE;
     client_write HDFS_PATH f true;;
     print [Lit "Successfully uploaded to HDFS: "; Lit HDFS_PATH];;
     file_status ← client_status HDFS_PATH;
     print [Lit "File size in HDFS: "; Num file_status; Lit " bytes"])
    (λ e, print [Lit "Error uploading to HDFS: "; Exc e];;
          raise e);;
  mret [Lit "Loaded data to HDFS: "; Lit HDFS_PATH].

(** The DAG: [extract_task >> transform_task >> load_hdfs_task].  A task
    gets its own task instance and runs when the task before it succeeded.
    A run is one attempt of each task; the two shell tasks that follow
    talk to Hive and are left out, so that [dag_run] is the run up to the
    return of the loader. *)
Record PythonOperator : Type := mk_operator {
  op_task_id : string;
  python_callable : kwargs → M fstring
}.

Definition extract_task : PythonOperator := mk_operator "Extract_Data" extract_data.
Definition transform_task : PythonOperator := mk_operator "Transform_Data" transform_data.
Definition load_hdfs_task : PythonOperator := mk_operator "Load_To_HDFS" load_to_hdfs.

Definition execute (op : PythonOperator) : M fstring :=
  python_callable op (mk_kwargs (mk_ti (op_task_id op))).

Definition dag_run : M unit :=
  execute extract_task;; execute transform_task;; execute load_hdfs_task;; mret tt.

(** The three Python tasks on their own, with the loader's result: the
    part of a run that comes before the two Hive tasks. *)
Definition python_tasks : M fstring :=
  execute extract_task;; execute transform_task;; execute load_hdfs_task.

(** *** Vocabulary of the statements *)

(** The payload under [raw_data] of [Extract_Data] is a non-empty text that
    [read_json] decodes to [df]. *)
Definition hands_over (w : world hdfs) (df : DataFrame) : Prop :=
  ∃ s, xcom w !! ("Extract_Data", "raw_data") = Some s ∧ s ≠ "" ∧ read_json s = inr df.

(** [transform_data] gets from [w] to line 74 with the frame [out] and
    writes it to the output file.  What follows is decided by [to_json] on
    [out] at line 77: either its text is pushed under [transformed_data]
    and the task returns normally, or its exception leaves the task, the
    file being written and nothing pushed. *)
Definition writes (kw : kwargs) (w : world hdfs) (out : DataFrame) : Prop :=
  files (snd (transform_data kw w)) = <[OUTPUT_FILE := csv_text out true false]> (files w)
  ∧ match to_json out with
    | inr payload =>
        fst (transform_data kw w)
        = inr [Lit "Transformed "; Num (len out); Lit " rows successfully"]
        ∧ xcom (snd (transform_data kw w))
          = <[(task_id (ti kw), "transformed_data") := payload]> (xcom w)
    | inl e =>
        fst (transform_data kw w) = inl e ∧ xcom (snd (transform_data kw w)) = xcom w
    end.

(** [transform_data] returns normally from [w], having written [out] to the
    output file and pushed its JSON text under [transformed_data]. *)
Definition completes (kw : kwargs) (w : world hdfs) (out : DataFrame) : Prop :=
  ∃ payload w', to_json out = inr payload
    ∧ transform_data kw w
      = (inr [Lit "Transformed "; Num (len out); Lit " rows successfully"], w')
    ∧ files w' = <[OUTPUT_FILE := csv_text out true false]> (files w)
    ∧ xcom w' = <[(task_id (ti kw), "transformed_data") := payload]> (xcom w).

(** The exception the transformer raises when nothing was handed over. *)
Definition no_data : exn :=
  ValueError "No data received from Extract_Data task via XCom".


(** ** What an effect leaves of the world *)

Section Projections.
Context (w : world hdfs).

Lemma xcom_printed s : xcom (printed s w) = xcom w.
Proof. done. Qed.
Lemma files_printed s : files (printed s w) = files w.
Proof. done. Qed.
Lemma dirs_printed s : dirs (printed s w) = dirs w.
Proof. done. Qed.
Lemma stdout_printed s : stdout (printed s w) = (stdout w ++ [s])%list.
Proof. done. Qed.
Lemma cluster_printed s : cluster (printed s w) = cluster w.
Proof. done. Qed.
Lemma requests_printed s : requests (printed s w) = requests w.
Proof. done. Qed.
Lemma xcom_pushed task key value : xcom (pushed task key value w) = <[(task, key) := value]> (xcom w).
Proof. done. Qed.
Lemma files_pushed task key value : files (pushed task key value w) = files w.
Proof. done. Qed.
Lemma dirs_pushed task key value : dirs (pushed task key value w) = dirs w.
Proof. done. Qed.
Lemma stdout_pushed task key value : stdout (pushed task key value w) = stdout w.
Proof. done. Qed.
Lemma cluster_pushed task key value : cluster (pushed task key value w) = cluster w.
Proof. done. Qed.
Lemma requests_pushed task key value : requests (pushed task key value w) = requests w.
Proof. done. Qed.
Lemma xcom_written path data : xcom (written path data w) = xcom w.
Proof. done. Qed.
Lemma files_written path data : files (written path data w) = <[path := data]> (files w).
Proof. done. Qed.
Lemma dirs_written path data : dirs (written path data w) = dirs w.
Proof. done. Qed.
Lemma stdout_written path data : stdout (written path data w) = stdout w.
Proof. done. Qed.
Lemma cluster_written path data : cluster (written path data w) = cluster w.
Proof. done. Qed.
Lemma requests_written path data : requests (written path data w) = requests w.
Proof. done. Qed.
Lemma xcom_made path : xcom (made path w) = xcom w.
Proof. done. Qed.
Lemma files_made path : files (made path w) = files w.
Proof. done. Qed.
Lemma dirs_made path : dirs (made path w) = {[path]} ∪ dirs w.
Proof. done. Qed.
Lemma stdout_made path : stdout (made path w) = stdout w.
Proof. done. Qed.
Lemma cluster_made path : cluster (made path w) = cluster w.
Proof. done. Qed.
Lemma requests_made path : requests (made path w) = requests w.
Proof. done. Qed.
Lemma xcom_answered rq c : xcom (answered rq c w) = xcom w.
Proof. done. Qed.
Lemma files_answered rq c : files (answered rq c w) = files w.
Proof. done. Qed.
Lemma dirs_answered rq c : dirs (answered rq c w) = dirs w.
Proof. done. Qed.
Lemma stdout_answered rq c : stdout (answered rq c w) = stdout w.
Proof. done. Qed.
Lemma cluster_answered rq c : cluster (answered rq c w) = c.
Proof. done. Qed.
Lemma requests_answered rq c : requests (answered rq c w) = (requests w ++ [rq])%list.
Proof. done. Qed.

End Projections.

(** Rewriting with the equations above. *)
Ltac look :=
  repeat first
    [ rewrite xcom_printed
    | rewrite files_printed
    | rewrite dirs_printed
    | rewrite stdout_printed
    | rewrite cluster_printed
    | rewrite requests_printed
    | rewrite xcom_pushed
    | rewrite files_pushed
    | rewrite dirs_pushed
    | rewrite stdout_pushed
    | rewrite cluster_pushed
    | rewrite requests_pushed
    | rewrite xcom_written
    | rewrite files_written
    | rewrite dirs_written
    | rewrite stdout_written
    | rewrite cluster_written
    | rewrite requests_written
    | rewrite xcom_made
    | rewrite files_made
    | rewrite dirs_made
    | rewrite stdout_made
    | rewrite cluster_made
    | rewrite requests_made
    | rewrite xcom_answered
    | rewrite files_answered
    | rewrite dirs_answered
    | rewrite stdout_answered
    | rewrite cluster_answered
    | rewrite requests_answered ].


(** ** Lists of fields *)

Lemma drop_fields_absent {A} labels hdr (xs : list A) :
  Forall (λ h, h ∉ labels) hdr → drop_fields labels hdr xs = xs.
Proof.
  intros Hhdr. revert xs. induction Hhdr as [|h hdr Hh _ IH]; intros [|x xs]; simpl; try done.
  rewrite bool_decide_eq_false_2 by done. by rewrite IH.
Qed.

Lemma drop_fields_header labels hdr :
  drop_fields labels hdr hdr = filter (λ h, h ∉ labels) hdr.
Proof.
  induction hdr as [|h hdr IH]; simpl; [done|].
  rewrite filter_cons. case_bool_decide; case_decide; try done. by rewrite IH.
Qed.

Lemma not_in_singleton (l h : string) : h ≠ l → h ∉ [l].
Proof. intros Hne Hin. apply list_elem_of_singleton in Hin. done. Qed.

Lemma filter_not_in_singleton (l : string) (hdr : list string) :
  filter (λ h, h ∉ [l]) hdr = filter (λ h, h ≠ l) hdr.
Proof.
  apply list_filter_iff. intros h. split.
  - intros Hn ->. apply Hn. by apply list_elem_of_singleton.
  - apply not_in_singleton.
Qed.

Lemma filter_absent (l : string) (hdr : list string) :
  l ∉ hdr → filter (λ h, h ≠ l) hdr = hdr.
Proof.
  induction hdr as [|h hdr IH]; [done|].
  intros [Hne Hin]%not_elem_of_cons.
  rewrite filter_cons_True by done. by rewrite IH.
Qed.

Lemma record_eta r : {| label := label r; cells := cells r |} = r.
Proof. by destruct r. Qed.

Lemma length_filter_split {A} (P : A → Prop) `{!∀ x, Decision (P x)} (l : list A) :
  length l = (length (filter P l) + length (filter (λ x, ¬ P x) l))%nat.
Proof.
  induction l as [|x l IH]; simpl; [done|].
  rewrite !filter_cons. destruct (decide (P x)), (decide (¬ P x)); simpl; try done; lia.
Qed.

Lemma fmap_zip_with_fst {A B C D} (f : A → B → C) (g : C → D) (h : A → D) l k :
  (∀ x y, g (f x y) = h x) → (length l ≤ length k)%nat →
  g <$> zip_with f l k = h <$> l.
Proof.
  intros Hg. revert k. induction l as [|x l IH]; intros [|y k] Hlen; simpl in *;
    try done; try lia.
  rewrite Hg, IH by lia. done.
Qed.

(** ** The cleaning steps *)

(** Lines 54-61: the column goes if it is there, then the rows with a
    missing value in what is left. *)
Lemma filtered_eq df :
  filtered df
  = inr {| columns := filter (λ h, h ≠ "Residential Type") (columns df);
           rows := filter (λ r, has_na r = false)
                     (strip ["Residential Type"] (columns df) <$> rows df) |}.
Proof.
  unfold filtered. case_bool_decide as Hin.
  - unfold df_drop. rewrite bool_decide_eq_true_2 by (by apply Forall_singleton).
    unfold df_dropna; simpl.
    by rewrite drop_fields_header, filter_not_in_singleton.
  - unfold df_dropna. do 2 f_equal.
    + by rewrite filter_absent.
    + f_equal. rewrite <- (list_fmap_id (rows df)) at 1.
      apply list_fmap_ext. intros _ r _. unfold strip.
      rewrite drop_fields_absent, record_eta; [done|].
      apply Forall_forall. intros h Hh. apply not_in_singleton. by intros ->.
Qed.

Lemma filtered_columns df post :
  filtered df = inr post →
  columns post = filter (λ h, h ≠ "Residential Type") (columns df).
Proof. rewrite filtered_eq. by intros [= <-]. Qed.

Lemma filtered_rows df post :
  filtered df = inr post →
  rows post = filter (λ r, has_na r = false)
                (strip ["Residential Type"] (columns df) <$> rows df).
Proof. rewrite filtered_eq. by intros [= <-]. Qed.

Lemma length_range_len df : length (Int <$> range 1 (len df + 1)) = length (rows df).
Proof. unfold range, len. rewrite length_fmap, length_seqZ. lia. Qed.

Ltac step := cbv beta iota zeta.

(** A value of as many items as the frame has rows leaves its index alone. *)
Lemma ensure_valid_index_same value df :
  length value = length (rows df) → ensure_valid_index value df = df.
Proof. unfold ensure_valid_index. by destruct (rows df), value. Qed.

(** Line 65 on a frame without a [SaleID] column: the rows are numbered from
    1 in their order. *)
Lemma insert_sale_id df :
  "SaleID" ∉ columns df →
  df_insert 0 "SaleID" (Int <$> range 1 (len df + 1)) df
  = inr {| columns := "SaleID" :: columns df;
           rows := zip_with (put 0) (Int <$> seqZ 1 (len df)) (rows df) |}.
Proof.
  intros Hfresh. unfold df_insert.
  rewrite bool_decide_eq_false_2 by done. step.
  rewrite ensure_valid_index_same by apply length_range_len.
  rewrite bool_decide_eq_false_2 by (rewrite length_range_len; auto).
  rewrite bool_decide_eq_false_2 by lia.
  unfold range. by replace (len df + 1 - 1) with (len df) by lia.
Qed.

(** Line 65 on a frame that has a [SaleID] column. *)
Lemma insert_sale_id_exists value df :
  "SaleID" ∈ columns df →
  df_insert 0 "SaleID" value df = inl (ValueError "cannot insert SaleID, already exists").
Proof. intros Hin. unfold df_insert. by rewrite bool_decide_eq_true_2. Qed.

Lemma sale_id_filtered df post :
  filtered df = inr post → "SaleID" ∈ columns post ↔ "SaleID" ∈ columns df.
Proof.
  intros Hpost. rewrite (filtered_columns _ _ Hpost), list_elem_of_filter.
  split; [by intros [_ ?] | by split].
Qed.

Lemma cleaned_eq df post :
  filtered df = inr post → "SaleID" ∉ columns df →
  cleaned df = inr {| columns := "SaleID" :: columns post;
                      rows := zip_with (put 0) (Int <$> seqZ 1 (len post)) (rows post) |}.
Proof.
  intros Hpost Hfresh. unfold cleaned. rewrite Hpost.
  apply insert_sale_id. by rewrite (sale_id_filtered _ _ Hpost).
Qed.

Lemma cleaned_exists df :
  "SaleID" ∈ columns df →
  cleaned df = inl (ValueError "cannot insert SaleID, already exists").
Proof.
  intros Hin. unfold cleaned. rewrite filtered_eq.
  apply insert_sale_id_exists. simpl. apply list_elem_of_filter. done.
Qed.

(** ** The transformer as a whole *)

Ltac run_transform :=
  unfold transform_data, mbind, M_bind, mret, M_ret, print, xcom_pull, xcom_push,
    os_makedirs, df_to_csv, write_file, lift, raise;
  step.

(** The whole of [transform_data]: what it returns and the world it leaves,
    by the payload, by what [read_json] makes of it, by the cleaning steps
    and by what [to_json] makes of the cleaned frame. *)
Lemma transform_data_cases kw w :
  transform_data kw w
  = let w0 := printed [Lit "Starting data transformation..."] w in
    match xcom w !! ("Extract_Data", "raw_data") with
    | None => (inl no_data, w0)
    | Some s =>
        if bool_decide (s = "") then (inl no_data, w0)
        else
          match read_json s with
          | inl e => (inl e, w0)
          | inr df =>
              let w1 := printed [Lit "Initial shape: "; Shape (shape df)] w0 in
              let w2 := if bool_decide ("Residential Type" ∈ columns df)
                        then printed [Lit "Dropped 'Residential Type' column"] w1
                        else w1 in
              match filtered df with
              | inl e => (inl e, w1)
              | inr post =>
                  let w3 := printed [Lit "Dropped "; Num (len df - len post);
                                     Lit " rows with null values"] w2 in
                  match df_insert 0 "SaleID" (Int <$> range 1 (len post + 1)) post with
                  | inl e => (inl e, w3)
                  | inr out =>
                      let w4 :=
                        printed [Lit "Saved transformed data to "; Lit OUTPUT_FILE]
                          (written OUTPUT_FILE (csv_text out true false)
                             (made (dirname OUTPUT_FILE)
                                (printed [Lit (LF +:+ "First 5 rows:" +:+ LF);
                                          Frame (df_head out)]
                                   (printed [Lit "Columns: "; Names (columns out)]
                                      (printed [Lit "Final shape: "; Shape (shape out)]
                                         (printed [Lit "Added SaleID column"] w3)))))) in
                      match to_json out with
                      | inl e => (inl e, w4)
                      | inr payload =>
                          (inr [Lit "Transformed "; Num (len out); Lit " rows successfully"],
                           pushed (task_id (ti kw)) "transformed_data" payload w4)
                      end
                  end
              end
          end
    end.
Proof.
  run_transform. look.
  destruct (xcom w !! ("Extract_Data", "raw_data")) as [[|c s]|]; [done| |done].
  rewrite bool_decide_eq_false_2 by done. step.
  destruct (read_json (String c s)) as [e|df]; [done|]. step.
  unfold filtered. case_bool_decide as Hin.
  - unfold df_drop. rewrite bool_decide_eq_true_2 by (by apply Forall_singleton).
    step.
    set (df1 := {| columns := drop_fields ["Residential Type"] (columns df) (columns df);
                   rows := strip ["Residential Type"] (columns df) <$> rows df |}).
    assert (len df1 = len df) as -> by (unfold len; simpl; by rewrite length_fmap).
    destruct (df_insert _ _ _ _) as [e|out]; [done|]. step. by destruct (to_json out).
  - step. destruct (df_insert _ _ _ _) as [e|out]; [done|]. step. by destruct (to_json out).
Qed.

Ltac transform_cases w Hs Hne Hjson Hpost Hout Hpay :=
  rewrite (transform_data_cases _ w); step;
  destruct (xcom w !! ("Extract_Data", "raw_data")) as [?s|] eqn:Hs;
    [ case_bool_decide as Hne;
      [ | destruct (read_json _) as [?e|?df] eqn:Hjson;
          [ | destruct (filtered _) as [?e|?post] eqn:Hpost;
              [ | destruct (df_insert 0 "SaleID" _ _) as [?e|?out] eqn:Hout;
                  [ | destruct (to_json _) as [?e|?payload] eqn:Hpay ];
                  destruct (bool_decide ("Residential Type" ∈ columns _)) eqn:?Hrt ] ] ]
    | ].

(** A payload that decodes to [df], and cleaning steps that go through: the
    frame is written, and [to_json] decides the rest. *)
Lemma transform_data_writes kw w df out :
  hands_over w df → cleaned df = inr out → writes kw w out.
Proof.
  intros (s & Hs & Hne & Hjson) Hout. unfold writes, cleaned in *.
  rewrite transform_data_cases. step. rewrite Hs, bool_decide_eq_false_2 by done.
  rewrite Hjson. destruct (filtered df) as [e|post]; [done|]. rewrite Hout.
  destruct (to_json out); cbn [fst snd]; case_bool_decide; look; done.
Qed.

(** The same, when [to_json] accepts the cleaned frame. *)
Lemma transform_data_run kw w df out payload :
  hands_over w df → cleaned df = inr out → to_json out = inr payload →
  ∃ w', transform_data kw w
        = (inr [Lit "Transformed "; Num (len out); Lit " rows successfully"], w')
    ∧ files w' = <[OUTPUT_FILE := csv_text out true false]> (files w)
    ∧ xcom w' = <[(task_id (ti kw), "transformed_data") := payload]> (xcom w).
Proof.
  intros Hdf Hout Hpay. destruct (transform_data_writes kw w df out Hdf Hout) as [Hfiles Hrest].
  rewrite Hpay in Hrest. destruct Hrest as [Hfst Hxcom].
  exists (snd (transform_data kw w)). split; [|done].
  rewrite <- Hfst. by destruct (transform_data kw w).
Qed.

(** And when [to_json] refuses it: its exception leaves the task with the
    output file written and nothing pushed. *)
Lemma transform_data_stops kw w df out e :
  hands_over w df → cleaned df = inr out → to_json out = inl e →
  ∃ w', transform_data kw w = (inl e, w')
    ∧ files w' = <[OUTPUT_FILE := csv_text out true false]> (files w)
    ∧ xcom w' = xcom w.
Proof.
  intros Hdf Hout Hpay. destruct (transform_data_writes kw w df out Hdf Hout) as [Hfiles Hrest].
  rewrite Hpay in Hrest. destruct Hrest as [Hfst Hxcom].
  exists (snd (transform_data kw w)). split; [|done].
  rewrite <- Hfst. by destruct (transform_data kw w).
Qed.

(** A payload that decodes to [df], and cleaning steps that raise: the
    exception leaves the task before anything is written or pushed. *)
Lemma transform_data_raises kw w df e :
  hands_over w df → cleaned df = inl e →
  ∃ w', transform_data kw w = (inl e, w') ∧ files w' = files w ∧ xcom w' = xcom w.
Proof.
  intros (s & Hs & Hne & Hjson) Hout. unfold cleaned in Hout.
  rewrite transform_data_cases. step. rewrite Hs, bool_decide_eq_false_2 by done.
  rewrite Hjson. destruct (filtered df) as [e'|post].
  - injection Hout as ->. eexists. split; [reflexivity|]. by look.
  - rewrite Hout. eexists. split; [reflexivity|]. case_bool_decide; by look.
Qed.

(** No payload, or an empty one. *)
Lemma transform_data_no_payload kw w :
  xcom w !! ("Extract_Data", "raw_data") = None
  ∨ xcom w !! ("Extract_Data", "raw_data") = Some "" →
  ∃ w', transform_data kw w = (inl no_data, w') ∧ files w' = files w ∧ xcom w' = xcom w.
Proof.
  intros [Hs|Hs]; rewrite transform_data_cases; step; rewrite Hs;
    rewrite ?bool_decide_eq_true_2 by done;
    (eexists; split; [reflexivity|]; by look).
Qed.

(** A payload that [read_json] refuses. *)
Lemma transform_data_bad_payload kw w s e :
  xcom w !! ("Extract_Data", "raw_data") = Some s → s ≠ "" → read_json s = inl e →
  ∃ w', transform_data kw w = (inl e, w') ∧ files w' = files w ∧ xcom w' = xcom w.
Proof.
  intros Hs Hne Hjson. rewrite transform_data_cases. step.
  rewrite Hs, bool_decide_eq_false_2 by done. rewrite Hjson.
  eexists; split; [reflexivity|]; by look.
Qed.

(** The only way the transformer returns normally. *)
Lemma transform_data_returns kw w msg w' :
  transform_data kw w = (inr msg, w') →
  ∃ df out payload, hands_over w df ∧ cleaned df = inr out ∧ to_json out = inr payload
    ∧ msg = [Lit "Transformed "; Num (len out); Lit " rows successfully"]
    ∧ files w' = <[OUTPUT_FILE := csv_text out true false]> (files w)
    ∧ xcom w' = <[(task_id (ti kw), "transformed_data") := payload]> (xcom w).
Proof.
  intros Hrun.
  destruct (xcom w !! ("Extract_Data", "raw_data")) as [s|] eqn:Hs.
  2: { destruct (transform_data_no_payload kw w) as (w1 & Hw1 & _); [by left|]. congruence. }
  destruct (decide (s = "")) as [->|Hne].
  { destruct (transform_data_no_payload kw w) as (w1 & Hw1 & _); [by right|]. congruence. }
  destruct (read_json s) as [e|df] eqn:Hjson.
  { destruct (transform_data_bad_payload kw w s e) as (w1 & Hw1 & _); try done. congruence. }
  assert (hands_over w df) as Hdf by (by exists s).
  destruct (cleaned df) as [e|out] eqn:Hout.
  { destruct (transform_data_raises kw w df e) as (w1 & Hw1 & _); try done. congruence. }
  destruct (to_json out) as [e|payload] eqn:Hpay.
  { destruct (transform_data_stops kw w df out e) as (w1 & Hw1 & _); try done. congruence. }
  destruct (transform_data_run kw w df out payload) as (w1 & Hw1 & Hfiles & Hxcom); try done.
  rewrite Hrun in Hw1. injection Hw1 as -> ->. by exists df, out, payload.
Qed.

(** ** Rows numbered by line 65 *)

Lemma length_numbered (rs : list record) :
  length (zip_with (put 0) (Int <$> seqZ 1 (Z.of_nat (length rs))) rs) = length rs.
Proof. rewrite length_zip_with_r_eq; [done|]. rewrite length_fmap, length_seqZ. lia. Qed.

Lemma sale_id_of_numbered hdr (rs : list record) n :
  n = Z.of_nat (length rs) →
  (λ r, field "SaleID" ("SaleID" :: hdr) (cells r)) <$> zip_with (put 0) (Int <$> seqZ 1 n) rs
  = (λ i, Some (Int i)) <$> seqZ 1 n.
Proof.
  intros ->. rewrite (list_fmap_compose Int Some).
  apply fmap_zip_with_fst; [done|]. rewrite length_fmap, length_seqZ. lia.
Qed.

Lemma strip_numbered hdr (rs : list record) n :
  n = Z.of_nat (length rs) → "SaleID" ∉ hdr →
  strip ["SaleID"] ("SaleID" :: hdr) <$> zip_with (put 0) (Int <$> seqZ 1 n) rs = rs.
Proof.
  intros -> Hfresh. apply fmap_zip_with_r.
  - intros v r. unfold strip, put; simpl.
    rewrite drop_0, drop_fields_absent, record_eta; [done|].
    apply Forall_forall. intros h Hh. apply not_in_singleton. by intros ->.
  - rewrite length_fmap, length_seqZ. lia.
Qed.

Lemma lookup_numbered (rs : list record) i r :
  rs !! i = Some r →
  zip_with (put 0) (Int <$> seqZ 1 (Z.of_nat (length rs))) rs !! i
  = Some (put 0 (Int (Z.of_nat i + 1)) r).
Proof.
  intros Hr. rewrite lookup_zip_with, list_lookup_fmap, Hr.
  rewrite lookup_seqZ_lt by (apply lookup_lt_Some in Hr; lia). simpl.
  do 3 f_equal. lia.
Qed.

Lemma length_filter_fmap {A B} (f : A → B) (P : B → Prop) `{!∀ y, Decision (P y)} l :
  length (filter P (f <$> l)) = length (filter (λ x, P (f x)) l).
Proof.
  induction l as [|x l IH]; [done|]. rewrite fmap_cons, !filter_cons.
  destruct (decide (P (f x))); simpl; by rewrite IH.
Qed.

(** The frame written by a run on [df], when [df] has no [SaleID] column. *)
Lemma cleaned_ok df :
  "SaleID" ∉ columns df →
  ∃ post out, filtered df = inr post ∧ cleaned df = inr out
    ∧ columns out = "SaleID" :: columns post
    ∧ rows out = zip_with (put 0) (Int <$> seqZ 1 (len post)) (rows post)
    ∧ "SaleID" ∉ columns post.
Proof.
  intros Hfresh. destruct (filtered df) as [e|post] eqn:Hpost.
  { by rewrite filtered_eq in Hpost. }
  eexists post, _. split; [done|]. split; [by apply cleaned_eq|].
  repeat split. by rewrite (sale_id_filtered _ _ Hpost).
Qed.

(** ** The frame stays rectangular *)

Lemma length_drop_fields {A B} labels hdr (xs : list A) (ys : list B) :
  length xs = length ys →
  length (drop_fields labels hdr xs) = length (drop_fields labels hdr ys).
Proof.
  revert xs ys. induction hdr as [|h hdr IH]; intros [|x xs] [|y ys] Hlen; simpl in *;
    try done.
  case_bool_decide; simpl; rewrite (IH xs ys); auto.
Qed.

Lemma filtered_rectangular df post :
  rectangular df → filtered df = inr post → rectangular post.
Proof.
  unfold rectangular. intros Hdf Hpost.
  rewrite (filtered_rows _ _ Hpost), (filtered_columns _ _ Hpost).
  rewrite <- filter_not_in_singleton, <- drop_fields_header.
  apply Forall_forall. intros r [_ Hr]%list_elem_of_filter.
  apply list_elem_of_fmap in Hr as (r0 & -> & Hr0).
  rewrite Forall_forall in Hdf. simpl. apply length_drop_fields. by apply Hdf.
Qed.

(** X9. The frame the transformer writes has one cell per column in every
    row when its input has. *)
Lemma cleaned_rectangular df out :
  rectangular df → cleaned df = inr out → rectangular out.
Proof.
  intros Hdf Hout. destruct (decide ("SaleID" ∈ columns df)) as [Hin|Hfresh].
  { by rewrite cleaned_exists in Hout. }
  destruct (cleaned_ok df Hfresh) as (post & out' & Hpost & Hout' & Hcols & Hrows & _).
  rewrite Hout in Hout'. injection Hout' as <-.
  pose proof (filtered_rectangular df post Hdf Hpost) as Hrect.
  unfold rectangular in *. rewrite Hcols, Hrows.
  apply Forall_forall. intros r Hr.
  apply elem_of_lookup_zip_with in Hr as (i & v & r0 & -> & _ & Hr0).
  rewrite Forall_forall in Hrect. unfold put, insert_at; simpl.
  rewrite drop_0. f_equal. apply Hrect. by eapply list_elem_of_lookup_2.
Qed.



(** The labels of the cleaned frame: the row labels are among the input's,
    in order; so labels that do not repeat in the input do not repeat in
    the cleaned frame, and the writer's own checks pass on it. *)
Lemma label_numbered (ids : list cell) (rs : list record) :
  (length rs ≤ length ids)%nat → label <$> zip_with (put 0) ids rs = label <$> rs.
Proof.
  revert ids. induction rs as [|r rs IH]; intros [|v ids] Hlen; simpl in *; try done; try lia.
  f_equal. apply IH. lia.
Qed.

Lemma cleaned_labels df out :
  cleaned df = inr out → (label <$> rows out) `sublist_of` (label <$> rows df).
Proof.
  intros Hout. destruct (decide ("SaleID" ∈ columns df)) as [Hin|Hfresh].
  { by rewrite cleaned_exists in Hout. }
  destruct (cleaned_ok df Hfresh) as (post & out' & Hpost & Hout' & _ & Hrows & _).
  rewrite Hout in Hout'. injection Hout' as <-.
  rewrite Hrows, label_numbered.
  2: { rewrite length_fmap, length_seqZ. unfold len. lia. }
  rewrite (filtered_rows _ _ Hpost).
  assert (label <$> rows df = label <$> (strip ["Residential Type"] (columns df) <$> rows df))
    as -> by (by rewrite <- list_fmap_compose).
  apply fmap_sublist, sublist_filter.
Qed.

Lemma to_json_cleaned df out :
  cleaned df = inr out → NoDup (label <$> rows df) → NoDup (columns df) →
  to_json out = json_text out.
Proof.
  intros Hout Hlabels Hcols. unfold to_json.
  rewrite bool_decide_eq_true_2 by (eapply sublist_NoDup; [done|by apply cleaned_labels]).
  rewrite bool_decide_eq_true_2; [done|].
  destruct (decide ("SaleID" ∈ columns df)) as [Hin|Hfresh].
  { by rewrite cleaned_exists in Hout. }
  destruct (cleaned_ok df Hfresh) as (post & out' & Hpost & Hout' & Hcols' & _ & Hfresh').
  rewrite Hout in Hout'. injection Hout' as <-. rewrite Hcols'.
  apply NoDup_cons. split; [done|]. rewrite (filtered_columns _ _ Hpost).
  by apply NoDup_filter.
Qed.

(** ** Properties of the transformer *)

(** C1. A run on a frame without a [SaleID] column writes a frame (and
    returns normally when [to_json] accepts that frame) that has as many
    rows as the input minus the rows that have a missing value in a column
    other than Residential Type; a row whose other columns are all present
    is kept, whatever its Residential Type cell holds. *)
Theorem transform_row_count kw w df :
  hands_over w df → "SaleID" ∉ columns df →
  ∃ out, cleaned df = inr out ∧ writes kw w out
    ∧ len out = len df
                - Z.of_nat (length (filter (λ r, has_na (strip ["Residential Type"] (columns df) r) = true)
                                      (rows df)))
    ∧ ∀ r, r ∈ rows df → has_na (strip ["Residential Type"] (columns df) r) = false →
           ∃ id, put 0 (Int id) (strip ["Residential Type"] (columns df) r) ∈ rows out.
Proof.
  intros Hdf Hfresh.
  destruct (cleaned_ok df Hfresh) as (post & out & Hpost & Hout & Hcols & Hrows & _).
  exists out. split; [done|]. split; [by eapply transform_data_writes|].
  pose proof (filtered_rows _ _ Hpost) as Hkept. split.
  - unfold len. rewrite Hrows. unfold len. rewrite length_numbered, Hkept, length_filter_fmap.
    rewrite (length_filter_split
               (λ r, has_na (strip ["Residential Type"] (columns df) r) = false) (rows df)).
    rewrite (list_filter_iff (λ r, ¬ has_na (strip ["Residential Type"] (columns df) r) = false)
               (λ r, has_na (strip ["Residential Type"] (columns df) r) = true)).
    + lia.
    + intros r. by destruct (has_na _).
  - intros r Hr Hfull.
    assert (strip ["Residential Type"] (columns df) r ∈ rows post) as Hin.
    { rewrite Hkept. apply list_elem_of_filter. split; [done|]. by apply list_elem_of_fmap_2. }
    apply list_elem_of_lookup in Hin as [i Hi].
    exists (Z.of_nat i + 1). apply list_elem_of_lookup. exists i.
    rewrite Hrows. by apply lookup_numbered.
Qed.

(** C2. A run on a frame without a [SaleID] column writes a frame (and
    returns normally when [to_json] accepts that frame) whose SaleID column
    holds 1, 2, ..., N in this order, N being the number of rows left after
    the rows with nulls are dropped; no value repeats, and without the
    SaleID column the rows are the rows left by the null-dropping, in the
    same order. *)
Theorem sale_id_sequential kw w df :
  hands_over w df → "SaleID" ∉ columns df →
  ∃ post out, filtered df = inr post ∧ cleaned df = inr out ∧ writes kw w out
    ∧ len out = len post
    ∧ column "SaleID" out = (λ i, Some (Int i)) <$> seqZ 1 (len post)
    ∧ NoDup (column "SaleID" out)
    ∧ strip ["SaleID"] (columns out) <$> rows out = rows post.
Proof.
  intros Hdf Hfresh.
  destruct (cleaned_ok df Hfresh) as (post & out & Hpost & Hout & Hcols & Hrows & Hfresh').
  exists post, out. split; [done|]. split; [done|]. split; [by eapply transform_data_writes|].
  assert (column "SaleID" out = (λ i, Some (Int i)) <$> seqZ 1 (len post)) as Hids.
  { unfold column. rewrite Hcols, Hrows. by apply sale_id_of_numbered. }
  split; [|split; [done|split]].
  - unfold len at 1. rewrite Hrows. unfold len. by rewrite length_numbered.
  - rewrite Hids. apply NoDup_fmap_2; [|apply NoDup_seqZ]. by intros i j [= ->].
  - rewrite Hcols, Hrows. by apply strip_numbered.
Qed.


(** C9. A run on a frame without a [SaleID] column writes a frame (and
    returns normally when [to_json] accepts that frame) whose rows, the
    SaleID cell left aside, are rows of the input with the Residential Type
    cell left aside: same label, same cells, and in the input's order. *)
Theorem transform_keeps_values kw w df :
  hands_over w df → "SaleID" ∉ columns df →
  ∃ out, cleaned df = inr out ∧ writes kw w out
    ∧ (strip ["SaleID"] (columns out) <$> rows out)
        `sublist_of` (strip ["Residential Type"] (columns df) <$> rows df).
Proof.
  intros Hdf Hfresh.
  destruct (cleaned_ok df Hfresh) as (post & out & Hpost & Hout & Hcols & Hrows & Hfresh').
  exists out. split; [done|]. split; [by eapply transform_data_writes|].
  rewrite Hcols, Hrows, strip_numbered by done.
  rewrite (filtered_rows _ _ Hpost). apply sublist_filter.
Qed.


Lemma filter_Forall_id {A} (P : A → Prop) `{!∀ x, Decision (P x)} (l : list A) :
  Forall P l → filter P l = l.
Proof.
  induction 1 as [|x l Hx _ IH]; [done|]. rewrite filter_cons_True by done. by rewrite IH.
Qed.

Lemma has_na_put v r : has_na (put 0 v r) = isna v || has_na r.
Proof. done. Qed.

Lemma numbered_no_na (rs : list record) n :
  Forall (λ r, has_na r = false) rs →
  Forall (λ r, has_na r = false) (zip_with (put 0) (Int <$> seqZ 1 n) rs).
Proof.
  intros Hrs. apply Forall_forall. intros r' Hr'.
  apply elem_of_lookup_zip_with in Hr' as (i & v & r & -> & Hv & Hr).
  rewrite has_na_put.
  apply list_lookup_fmap_Some in Hv as (z & -> & _). simpl.
  rewrite Forall_forall in Hrs. apply Hrs. by eapply list_elem_of_lookup_2.
Qed.

(** C5, as the code has it.  On a frame with no Residential Type column, no
    SaleID column and no missing value, the transformer keeps every column
    and row and puts SaleID 1..N in front.  On that output the dropping of
    the column and of the rows with nulls changes nothing, but the
    insertion of SaleID raises, its column being there already: a second
    run fails and writes nothing.  With the SaleID column taken off first,
    the second run gives the first run's output again, SaleID included. *)
Theorem transform_twice df :
  "Residential Type" ∉ columns df → "SaleID" ∉ columns df →
  Forall (λ r, has_na r = false) (rows df) →
  ∃ out, cleaned df = inr out
    ∧ columns out = "SaleID" :: columns df
    ∧ column "SaleID" out = (λ i, Some (Int i)) <$> seqZ 1 (len df)
    ∧ strip ["SaleID"] (columns out) <$> rows out = rows df
    ∧ filtered out = inr out
    ∧ cleaned out = inl (ValueError "cannot insert SaleID, already exists")
    ∧ (∀ kw w, hands_over w out →
         ∃ w', transform_data kw w
               = (inl (ValueError "cannot insert SaleID, already exists"), w')
               ∧ files w' = files w ∧ xcom w' = xcom w)
    ∧ match df_drop ["SaleID"] out with
      | inr df' => cleaned df'
      | inl e => inl e
      end = inr out.
Proof.
  intros Hrt Hfresh Hfull.
  assert (filtered df = inr df) as Hpost.
  { rewrite filtered_eq. destruct df as [hdr rs]; simpl in *. f_equal. f_equal.
    - by apply filter_absent.
    - rewrite filter_Forall_id.
      + rewrite <- (list_fmap_id rs) at 2. apply list_fmap_ext. intros _ r _.
        unfold strip. rewrite drop_fields_absent, record_eta; [done|].
        apply Forall_forall. intros h Hh. apply not_in_singleton. by intros ->.
      + apply Forall_fmap. eapply Forall_impl; [exact Hfull|]. intros r Hr; simpl.
        unfold strip, has_na; simpl. rewrite drop_fields_absent; [done|].
        apply Forall_forall. intros h Hh. apply not_in_singleton. by intros ->. }
  pose proof (cleaned_eq df df Hpost Hfresh) as Hout.
  set (out := {| columns := "SaleID" :: columns df;
                 rows := zip_with (put 0) (Int <$> seqZ 1 (len df)) (rows df) |}) in *.
  assert (strip ["SaleID"] (columns out) <$> rows out = rows df) as Hstrip
    by (by apply strip_numbered).
  assert (cleaned out = inl (ValueError "cannot insert SaleID, already exists")) as Hagain
    by (apply cleaned_exists; simpl; left).
  assert (column "SaleID" out = (λ i, Some (Int i)) <$> seqZ 1 (len df)) as Hids
    by (by apply sale_id_of_numbered).
  exists out. repeat split; try done.
  - rewrite filtered_eq. subst out; simpl. f_equal. f_equal.
    + rewrite filter_cons_True by done. f_equal. by apply filter_absent.
    + assert (strip ["Residential Type"] ("SaleID" :: columns df)
                <$> zip_with (put 0) (Int <$> seqZ 1 (len df)) (rows df)
              = zip_with (put 0) (Int <$> seqZ 1 (len df)) (rows df)) as ->.
      { rewrite <- (list_fmap_id (zip_with _ _ _)) at 2. apply list_fmap_ext.
        intros _ r _. unfold strip. rewrite drop_fields_absent, record_eta; [done|].
        apply Forall_cons. split; [by apply not_in_singleton|].
        apply Forall_forall. intros h Hh. apply not_in_singleton. by intros ->. }
      apply filter_Forall_id. by apply numbered_no_na.
  - intros kw w Hw. by apply (transform_data_raises kw w out).
  - unfold df_drop. rewrite bool_decide_eq_true_2
      by (apply Forall_singleton; subst out; simpl; left).
    assert ({| columns := drop_fields ["SaleID"] (columns out) (columns out);
               rows := strip ["SaleID"] (columns out) <$> rows out |} = df) as ->; [|done].
    rewrite Hstrip. subst out; simpl. rewrite drop_fields_absent; [by destruct df|].
    apply Forall_forall. intros h Hh. apply not_in_singleton. by intros ->.
Qed.

(** ** The written file *)


Lemma csv_text_no_index df :
  csv_text df true false
  = csv_row (columns df)
    +:+ String.concat "" ((λ cs, csv_row (csv_value <$> cs)) <$> (cells <$> rows df)).
Proof. unfold csv_text; simpl. by rewrite <- list_fmap_compose. Qed.

Lemma csv_text_numbered hdr (rs : list record) n :
  csv_text {| columns := hdr; rows := zip_with (put 0) (Int <$> seqZ 1 n) rs |} true false
  = csv_row hdr
    +:+ String.concat ""
          (zip_with (λ id r, csv_row (csv_value (Int id) :: (csv_value <$> cells r)))
             (seqZ 1 n) rs).
Proof.
  unfold csv_text; simpl. f_equal. f_equal.
  generalize (seqZ 1 n). induction rs as [|r rs IH]; intros [|id ids]; simpl; try done.
  by rewrite IH.
Qed.

(** C8. After a run that returned normally, the output file is the one
    [to_csv] writes, with its header and without its index, for the cleaned
    form of the frame the payload decodes to.  Its first line is the line
    of the column names: SaleID, then the input's columns other than
    Residential Type.  The lines after it are the rows left by the
    null-dropping, in order, each made of its number (1, 2, ...) followed by
    the row's own cells; the row labels are nowhere in the file. *)
Theorem output_file_layout kw w msg w' :
  transform_data kw w = (inr msg, w') →
  ∃ df post out, hands_over w df ∧ filtered df = inr post ∧ cleaned df = inr out
    ∧ columns post = filter (λ h, h ≠ "Residential Type") (columns df)
    ∧ files w' !! OUTPUT_FILE = Some (csv_text out true false)
    ∧ files w' !! OUTPUT_FILE
      = Some (csv_row ("SaleID" :: columns post)
              +:+ String.concat ""
                    (zip_with (λ id r, csv_row (csv_value (Int id) :: (csv_value <$> cells r)))
                       (seqZ 1 (len post)) (rows post))).
Proof.
  intros Hrun.
  apply transform_data_returns in Hrun as (df & out & payload & Hdf & Hout & _ & _ & Hfiles & _).
  assert (files w' !! OUTPUT_FILE = Some (csv_text out true false)) as Hfile
    by (rewrite Hfiles; apply lookup_insert_eq).
  destruct (decide ("SaleID" ∈ columns df)) as [Hin|Hfresh].
  { rewrite cleaned_exists in Hout by done. done. }
  destruct (filtered df) as [e|post] eqn:Hpost; [by rewrite filtered_eq in Hpost|].
  exists df, post, out. split; [done|]. split; [done|]. split; [done|].
  split; [by apply filtered_columns|]. split; [done|].
  rewrite Hfile. rewrite (cleaned_eq df post Hpost Hfresh) in Hout. injection Hout as <-.
  by rewrite csv_text_numbered.
Qed.


(** A frame of zero rows has no row left. *)
Lemma filtered_no_rows df : rows df = [] → ∃ post, filtered df = inr post ∧ rows post = [].
Proof. intros Hempty. rewrite filtered_eq, Hempty. by eexists. Qed.

(** ** The hand-over from the extractor *)

(** The whole of [extract_data]. *)
Lemma extract_data_cases kw w :
  extract_data kw w
  = let w0 := printed [Lit "Starting data extraction..."] w in
    match files w !! INPUT_FILE with
    | None => (inl (FileNotFoundError INPUT_FILE), w0)
    | Some text =>
        match parse_csv text with
        | inl e => (inl e, w0)
        | inr df =>
            let w1 := printed [Lit "Columns: "; Names (columns df)]
                        (printed [Lit "Extracted "; Num (len df); Lit " rows"] w0) in
            match to_json df with
            | inl e => (inl e, w1)
            | inr payload =>
                (inr [Lit "Extracted "; Num (len df); Lit " rows successfully"],
                 pushed (task_id (ti kw)) "raw_data" payload w1)
            end
        end
    end.
Proof.
  unfold extract_data, pd_read_csv, open_rb, xcom_push, mbind, M_bind, mret, M_ret, print,
    lift.
  step. look. destruct (files w !! INPUT_FILE) as [text|]; [|done]. step.
  destruct (parse_csv text) as [e|df]; [done|]. step. by destruct (to_json df).
Qed.

(** The extractor pushes the JSON text of the frame it read under the task
    and key the transformer pulls from. *)
Lemma extract_data_run w text df payload :
  files w !! INPUT_FILE = Some text → parse_csv text = inr df → to_json df = inr payload →
  ∃ w', execute extract_task w
        = (inr [Lit "Extracted "; Num (len df); Lit " rows successfully"], w')
    ∧ xcom w' !! ("Extract_Data", "raw_data") = Some payload
    ∧ files w' = files w ∧ cluster w' = cluster w ∧ requests w' = requests w.
Proof.
  intros Hfile Hcsv Hpay.
  change (execute extract_task) with (extract_data (mk_kwargs (mk_ti "Extract_Data"))).
  rewrite extract_data_cases. step. rewrite Hfile, Hcsv, Hpay.
  eexists. split; [reflexivity|]. look. split; [|done]. apply lookup_insert_eq.
Qed.

(** What reaches the transformer is [read_json] of the text [to_json] made
    of the frame the extractor read. *)
Lemma extract_hands_over w text df payload df' :
  files w !! INPUT_FILE = Some text → parse_csv text = inr df →
  to_json df = inr payload → payload ≠ "" → read_json payload = inr df' →
  ∃ w', execute extract_task w
        = (inr [Lit "Extracted "; Num (len df); Lit " rows successfully"], w')
    ∧ hands_over w' df'
    ∧ files w' = files w ∧ cluster w' = cluster w ∧ requests w' = requests w.
Proof.
  intros Hfile Hcsv Hpay Hne Hjson.
  destruct (extract_data_run w text df payload Hfile Hcsv Hpay) as (w' & Hrun & Hxcom & Hrest).
  exists w'. split; [done|]. split; [by exists payload|done].
Qed.

(** X12. Extraction followed by transformation: when [to_json] accepts the
    frame the extractor read, the transformer finds the payload the
    extractor pushed; when the cleaning steps go through on what
    [read_json] makes of it and [to_json] accepts the cleaned frame, both
    tasks return normally, the output file holds the cleaned frame and its
    JSON text is in the store. *)
Lemma extract_then_transform w text df payload df' out payload' :
  files w !! INPUT_FILE = Some text → parse_csv text = inr df →
  to_json df = inr payload → payload ≠ "" → read_json payload = inr df' →
  cleaned df' = inr out → to_json out = inr payload' →
  ∃ w', (execute extract_task;; execute transform_task) w
        = (inr [Lit "Transformed "; Num (len out); Lit " rows successfully"], w')
    ∧ files w' !! OUTPUT_FILE = Some (csv_text out true false)
    ∧ xcom w' !! ("Transform_Data", "transformed_data") = Some payload'.
Proof.
  intros Hfile Hcsv Hpay Hne Hjson Hout Hpay'.
  destruct (extract_hands_over w text df payload df' Hfile Hcsv Hpay Hne Hjson)
    as (w1 & Hrun1 & Hdf' & _).
  destruct (transform_data_run (mk_kwargs (mk_ti "Transform_Data")) w1 df' out payload'
              Hdf' Hout Hpay') as (w2 & Hrun2 & Hfiles & Hxcom).
  exists w2. split; [|split].
  - unfold mbind, M_bind at 1. rewrite Hrun1. exact Hrun2.
  - rewrite Hfiles. apply lookup_insert_eq.
  - rewrite Hxcom. apply lookup_insert_eq.
Qed.


(** X18. A missing input file stops the run at the first task: the run
    raises [FileNotFoundError], and no file, XCom value or request comes of
    it. *)
Lemma dag_run_no_input w :
  files w !! INPUT_FILE = None →
  ∃ w', dag_run w = (inl (FileNotFoundError INPUT_FILE), w')
    ∧ files w' = files w ∧ xcom w' = xcom w ∧ requests w' = requests w.
Proof.
  intros Hfile. unfold dag_run, mbind, M_bind.
  change (execute extract_task) with (extract_data (mk_kwargs (mk_ti "Extract_Data"))).
  rewrite extract_data_cases. step. rewrite Hfile.
  eexists. split; [reflexivity|]. look. done.
Qed.

(** ** The loader *)

Ltac run_load :=
  unfold load_to_hdfs, try_except, client_makedirs, client_write, client_status, send,
    open_rb, mbind, M_bind, mret, M_ret, print, raise;
  step; look.

(** The loader, request by request. *)
Lemma load_to_hdfs_run kw w answer c1 :
  hdfs_makedirs (dirname HDFS_PATH) (cluster w) = (answer, c1) →
  load_to_hdfs kw w
  = let w1 :=
      printed (match answer with
               | inl e => [Lit "Directory "; Lit (dirname HDFS_PATH);
                           Lit " may already exist: "; Exc e]
               | inr _ => [Lit "Created directory: "; Lit (dirname HDFS_PATH)]
               end)
        (answered (Makedirs (dirname HDFS_PATH)) c1
           (printed [Lit "Uploading "; Lit OUTPUT_FILE; Lit " to HDFS path "; Lit HDFS_PATH]
              (printed [Lit "Starting data load to HDFS..."] w))) in
    let failed e w' := (inl e, printed [Lit "Error uploading to HDFS: "; Exc e] w') in
    match files w !! OUTPUT_FILE with
    | None => failed (FileNotFoundError OUTPUT_FILE) w1
    | Some data =>
        match hdfs_write HDFS_PATH data true c1 with
        | (inl e, c2) => failed e (answered (Upload HDFS_PATH data true) c2 w1)
        | (inr _, c2) =>
            let w2 := printed [Lit "Successfully uploaded to HDFS: "; Lit HDFS_PATH]
                        (answered (Upload HDFS_PATH data true) c2 w1) in
            match hdfs_status HDFS_PATH c2 with
            | (inl e, c3) => failed e (answered (Status HDFS_PATH) c3 w2)
            | (inr n, c3) =>
                (inr [Lit "Loaded data to HDFS: "; Lit HDFS_PATH],
                 printed [Lit "File size in HDFS: "; Num n; Lit " bytes"]
                   (answered (Status HDFS_PATH) c3 w2))
            end
        end
    end.
Proof.
  clear parse_csv read_json json_text csv_value csv_row.
  intros Hmk. run_load. rewrite Hmk.
  destruct answer as [e0|[]]; step; look;
    (destruct (files w !! OUTPUT_FILE) as [data|]; step; look; [|done];
     destruct (hdfs_write HDFS_PATH data true c1) as [[e1|[]] c2]; step; look; [done|];
     by destruct (hdfs_status HDFS_PATH c2) as [[e2|n] c3]).
Qed.

(** C7. Whatever the cluster answers to the directory request, the loader
    goes on: its outcome is decided by the local file and by the answers
    to the upload and status requests alone.  A failed directory request
    leaves a line on standard output; when the local file is there the
    upload request is sent right after the directory request; a failed
    upload is printed and raised again as it is. *)
Theorem load_error_handling kw w answer c1 :
  hdfs_makedirs (dirname HDFS_PATH) (cluster w) = (answer, c1) →
  fst (load_to_hdfs kw w)
  = match files w !! OUTPUT_FILE with
    | None => inl (FileNotFoundError OUTPUT_FILE)
    | Some data =>
        match hdfs_write HDFS_PATH data true c1 with
        | (inl e, _) => inl e
        | (inr _, c2) =>
            match hdfs_status HDFS_PATH c2 with
            | (inl e, _) => inl e
            | (inr _, _) => inr [Lit "Loaded data to HDFS: "; Lit HDFS_PATH]
            end
        end
    end
  ∧ (∀ e, answer = inl e →
       [Lit "Directory "; Lit (dirname HDFS_PATH); Lit " may already exist: "; Exc e]
         ∈ stdout (snd (load_to_hdfs kw w)))
  ∧ (∀ data, files w !! OUTPUT_FILE = Some data →
       ∃ later, requests (snd (load_to_hdfs kw w))
                = (requests w ++ Makedirs (dirname HDFS_PATH)
                                 :: Upload HDFS_PATH data true :: later)%list)
  ∧ (∀ data e c2, files w !! OUTPUT_FILE = Some data →
       hdfs_write HDFS_PATH data true c1 = (inl e, c2) →
       fst (load_to_hdfs kw w) = inl e
       ∧ [Lit "Error uploading to HDFS: "; Exc e] ∈ stdout (snd (load_to_hdfs kw w))).
Proof.
  clear parse_csv read_json json_text csv_value csv_row.
  intros Hmk. rewrite (load_to_hdfs_run kw w answer c1 Hmk). step.
  destruct (files w !! OUTPUT_FILE) as [data|] eqn:Hfile.
  2: { repeat split; try done. intros e ->. cbn [snd]. look. set_solver. }
  destruct (hdfs_write HDFS_PATH data true c1) as [[e1|[]] c2] eqn:Hwr.
  2: destruct (hdfs_status HDFS_PATH c2) as [[e2|n] c3] eqn:Hst.
  all: cbn [fst snd]; look; rewrite <- ?app_assoc; cbn [app].
  all: split; [done|]; split; [intros e ->; set_solver|].
  all: split; [intros data' [= <-]; by eexists|].
  all: intros data' e' c' [= <-]; rewrite ?Hwr; intros [= <- <-]; (split; [done|set_solver]).
Qed.

(** ** The transformer, case by case *)




(** X24. Labels that do not repeat in the decoded frame do not repeat in
    the cleaned frame: the checks [to_json] makes at line 77 pass, and the
    run returns normally as soon as the encoder writes the frame. *)
Theorem transform_data_unique_labels kw w df :
  hands_over w df → "SaleID" ∉ columns df →
  NoDup (label <$> rows df) → NoDup (columns df) →
  ∃ out, cleaned df = inr out
    ∧ NoDup (label <$> rows out) ∧ NoDup (columns out)
    ∧ to_json out = json_text out
    ∧ ∀ payload, json_text out = inr payload → completes kw w out.
Proof.
  clear parse_csv hdfs_makedirs hdfs_write hdfs_status.
  intros Hdf Hfresh Hlabels Hcols.
  destruct (cleaned_ok df Hfresh) as (post & out & Hpost & Hout & Hcols' & _ & Hfresh').
  exists out. split; [done|].
  split; [eapply sublist_NoDup; [done|by apply cleaned_labels]|]. split.
  { rewrite Hcols'. apply NoDup_cons. split; [done|].
    rewrite (filtered_columns _ _ Hpost). by apply NoDup_filter. }
  pose proof (to_json_cleaned df out Hout Hlabels Hcols) as Hjson. split; [done|].
  intros payload Hpay. exists payload. rewrite Hpay in Hjson.
  destruct (transform_data_run kw w df out payload Hdf Hout Hjson) as (w' & Hrun & Hrest).
  by exists w'.
Qed.

(** X2. A payload that is the empty string counts as no payload: the
    transformer raises its "No data received" error without calling
    [read_json], and writes nothing. *)
Theorem transform_empty_string_payload kw w :
  xcom w !! ("Extract_Data", "raw_data") = Some "" →
  transform_data kw w
  = (inl no_data, printed [Lit "Starting data transformation..."] w).
Proof. intros Hs. transform_cases w Hs' Hne Hjson Hpost Hout Hpay; congruence. Qed.

(** X3. Whatever the outcome, the transformer sends nothing to the cluster,
    leaves every file but the output file and every XCom value but its own
    [transformed_data] as they were, keeps the extractor's payload in the
    store, and removes no directory. *)
Theorem transform_data_footprint kw w :
  let w' := snd (transform_data kw w) in
  cluster w' = cluster w ∧ requests w' = requests w
  ∧ (∀ path, path ≠ OUTPUT_FILE → files w' !! path = files w !! path)
  ∧ (∀ key, key ≠ (task_id (ti kw), "transformed_data") → xcom w' !! key = xcom w !! key)
  ∧ xcom w' !! ("Extract_Data", "raw_data") = xcom w !! ("Extract_Data", "raw_data")
  ∧ dirs w ⊆ dirs w'.
Proof.
  clear parse_csv hdfs_makedirs hdfs_write hdfs_status.
  intros w'. subst w'.
  transform_cases w Hs Hne Hjson Hpost Hout Hpay; cbn [snd]; look; try done.
  all: split; [done|]; split; [done|]; split; [|split; [|split]].
  all: try (intros ? ?); try (by rewrite lookup_insert_ne); set_solver.
Qed.

(** X4. Running the transformer a second time (a retry) from the world the
    first run left gives the first run's outcome again, and leaves the files
    and the XCom store as the first run left them: the payload it reads
    stays in the store and its own output is not among its inputs. *)
Theorem transform_data_rerun kw w :
  let w1 := snd (transform_data kw w) in
  fst (transform_data kw w1) = fst (transform_data kw w)
  ∧ files (snd (transform_data kw w1)) = files w1
  ∧ xcom (snd (transform_data kw w1)) = xcom w1.
Proof.
  intros w1. subst w1.
  transform_cases w Hs Hne Hjson Hpost Hout Hpay; cbn [fst snd];
    match goal with |- context [transform_data kw ?W] => set (w1 := W) end;
    (assert (xcom w1 !! ("Extract_Data", "raw_data") = xcom w !! ("Extract_Data", "raw_data"))
       as Hs1 by (subst w1; look; by rewrite ?lookup_insert_ne by (by intros [=])));
    rewrite (transform_data_cases kw w1); step; rewrite Hs1, Hs;
    rewrite ?bool_decide_eq_true_2, ?bool_decide_eq_false_2 by done;
    rewrite ?Hjson; step; rewrite ?Hpost; step; rewrite ?Hout, ?Hrt; step;
    try rewrite Hpay; cbn [fst snd]; look;
    try done.
  all: subst w1; look; by rewrite ?insert_insert_eq.
Qed.

(** X5. What a run that goes through prints, line by line: the shape of the
    decoded frame; the dropped column, when the input has it and only then;
    the number of dropped rows, which is the input's row count minus the
    output's; then the shape, the columns and the first five rows of the
    frame it writes. *)
Theorem transform_data_report kw w df out :
  hands_over w df → cleaned df = inr out →
  stdout (snd (transform_data kw w))
  = (stdout w
     ++ [ [Lit "Starting data transformation..."];
          [Lit "Initial shape: "; Shape (shape df)] ]
     ++ (if bool_decide ("Residential Type" ∈ columns df)
         then [ [Lit "Dropped 'Residential Type' column"] ] else [])
     ++ [ [Lit "Dropped "; Num (len df - len out); Lit " rows with null values"];
          [Lit "Added SaleID column"];
          [Lit "Final shape: "; Shape (shape out)];
          [Lit "Columns: "; Names (columns out)];
          [Lit (LF +:+ "First 5 rows:" +:+ LF); Frame (df_head out)];
          [Lit "Saved transformed data to "; Lit OUTPUT_FILE] ])%list.
Proof.
  intros (s & Hs & Hne & Hjson) Hout.
  assert (len out = match filtered df with inr post => len post | inl _ => 0 end) as Hlen.
  { destruct (decide ("SaleID" ∈ columns df)) as [Hin|Hfresh].
    { by rewrite cleaned_exists in Hout. }
    destruct (cleaned_ok df Hfresh) as (post & out' & Hpost & Hout' & _ & Hrows & _).
    rewrite Hout in Hout'. injection Hout' as <-. rewrite Hpost.
    unfold len at 1. rewrite Hrows. unfold len. by rewrite length_numbered. }
  unfold cleaned in Hout. rewrite transform_data_cases. step. rewrite Hs.
  rewrite bool_decide_eq_false_2 by done. rewrite Hjson.
  destruct (filtered df) as [e|post]; [done|]. rewrite Hout.
  destruct (to_json out); cbn [snd]; rewrite Hlen;
    case_bool_decide; look; rewrite <- ?app_assoc; done.
Qed.

(** ** More on the frame operations *)









(** X8. The cells of the Residential Type column have no say in what is
    written: two frames that agree on their other columns and on the cells
    under them give the same cleaned frame, or the same exception. *)
Theorem cleaned_ignores_residential_type df1 df2 :
  filter (λ h, h ≠ "Residential Type") (columns df1)
  = filter (λ h, h ≠ "Residential Type") (columns df2) →
  strip ["Residential Type"] (columns df1) <$> rows df1
  = strip ["Residential Type"] (columns df2) <$> rows df2 →
  cleaned df1 = cleaned df2.
Proof.
  intros Hcols Hrows. unfold cleaned. by rewrite !filtered_eq, Hcols, Hrows.
Qed.

Lemma filtered_no_nulls df post :
  filtered df = inr post → Forall (λ r, has_na r = false) (rows post).
Proof.
  intros Hpost. rewrite (filtered_rows _ _ Hpost).
  apply Forall_forall. by intros r [Hr _]%list_elem_of_filter.
Qed.

(** X7. The frame the transformer writes has no missing value in any cell,
    SaleID included, so dropping the rows with nulls once more changes
    nothing. *)
Theorem cleaned_no_nulls df out :
  cleaned df = inr out →
  Forall (λ r, Forall (λ c, isna c = false) (cells r)) (rows out)
  ∧ df_dropna out = out.
Proof.
  intros Hout. destruct (decide ("SaleID" ∈ columns df)) as [Hin|Hfresh].
  { by rewrite cleaned_exists in Hout. }
  destruct (cleaned_ok df Hfresh) as (post & out' & Hpost & Hout' & _ & Hrows & _).
  rewrite Hout in Hout'. injection Hout' as <-.
  assert (Forall (λ r, has_na r = false) (rows out)) as Hfull.
  { rewrite Hrows. apply numbered_no_na. by eapply filtered_no_nulls. }
  split.
  - eapply Forall_impl; [exact Hfull|]. intros r Hr. unfold has_na in Hr.
    apply Forall_forall. intros c Hc. destruct (isna c) eqn:Hna; [|done].
    assert (existsb isna (cells r) = true) as Hex; [|congruence].
    apply existsb_exists. exists c. split; [|done]. by apply list_elem_of_In.
  - unfold df_dropna. destruct out as [hdr rs]; simpl in *. f_equal.
    by apply filter_Forall_id.
Qed.

(** ** Paths, once more *)

Lemma list_ascii_of_string_app (s t : string) :
  list_ascii_of_string (s +:+ t) = (list_ascii_of_string s ++ list_ascii_of_string t)%list.
Proof.
  induction s as [|c s IH]; [done|].
  change (c :: list_ascii_of_string (s +:+ t) = c :: (list_ascii_of_string s ++ list_ascii_of_string t)%list).
  by rewrite IH.
Qed.

Lemma lstrip_all (p : ascii → bool) (l k : list ascii) :
  forallb p l = true → lstrip p (l ++ k) = lstrip p k.
Proof.
  induction l as [|c l IH]; [done|]. simpl. intros [Hc Hl]%andb_true_iff.
  rewrite Hc. by apply IH.
Qed.

Lemma lstrip_stop (p : ascii → bool) c (l : list ascii) :
  p c = false → lstrip p (c :: l) = c :: l.
Proof. intros Hc. simpl. by rewrite Hc. Qed.

Lemma forallb_reverse (p : ascii → bool) (l : list ascii) :
  forallb p l = true → forallb p (reverse l) = true.
Proof.
  rewrite !forallb_forall. intros Hl a Ha. apply Hl.
  apply list_elem_of_In. apply list_elem_of_In in Ha. by apply elem_of_reverse.
Qed.

(** X21. [dirname] undoes the joining of a directory and a file name: for
    a directory that does not end in a slash and a name without slashes,
    the directory of [dir/name] is [dir]. *)
Theorem dirname_join (dir : string) (c : ascii) (name : string) :
  c ≠ "/"%char → forallb (λ a, negb (is_slash a)) (list_ascii_of_string name) = true →
  dirname ((dir +:+ String c "") +:+ "/" +:+ name) = dir +:+ String c "".
Proof.
  intros Hc Hname. unfold dirname.
  rewrite !list_ascii_of_string_app. simpl list_ascii_of_string at 2 3.
  assert (is_slash c = false) as Hslash by (unfold is_slash; by rewrite bool_decide_eq_false_2).
  set (ld := list_ascii_of_string dir).
  rewrite !reverse_app, reverse_cons, reverse_singleton. simpl.
  rewrite <- !app_assoc. simpl.
  rewrite lstrip_all by (by apply forallb_reverse).
  rewrite (lstrip_stop (λ a, negb (is_slash a)) "/"%char) by reflexivity.
  rewrite reverse_cons, reverse_cons, reverse_involutive.
  rewrite <- app_assoc. simpl.
  assert (forallb is_slash (ld ++ [c; "/"%char]) = false) as ->.
  { rewrite forallb_app. simpl. rewrite Hslash. by rewrite andb_false_r. }
  rewrite reverse_app. simpl. rewrite Hslash.
  rewrite reverse_cons, reverse_involutive.
  subst ld. rewrite <- (string_of_list_ascii_of_string (dir +:+ String c "")).
  by rewrite list_ascii_of_string_app.
Qed.

(** ** The extractor and the loader, case by case *)

(** X11. When the extractor raises, the input file is missing and the
    exception is [FileNotFoundError] on its path, or the file is there and
    the exception is the parser's, or the file parses and the exception is
    the one [to_json] raises on the parsed frame, after the row count and
    the columns were printed.  In every case nothing is pushed, and no file
    or request comes of it. *)
Theorem extract_data_failure kw w e w' :
  extract_data kw w = (inl e, w') →
  ((files w !! INPUT_FILE = None ∧ e = FileNotFoundError INPUT_FILE
    ∧ stdout w' = (stdout w ++ [ [Lit "Starting data extraction..."] ])%list)
   ∨ (∃ text, files w !! INPUT_FILE = Some text ∧ parse_csv text = inl e
        ∧ stdout w' = (stdout w ++ [ [Lit "Starting data extraction..."] ])%list)
   ∨ (∃ text df, files w !! INPUT_FILE = Some text ∧ parse_csv text = inr df
        ∧ to_json df = inl e
        ∧ stdout w' = (stdout w ++ [ [Lit "Starting data extraction..."];
                                     [Lit "Extracted "; Num (len df); Lit " rows"];
                                     [Lit "Columns: "; Names (columns df)] ])%list))
  ∧ xcom w' = xcom w ∧ files w' = files w ∧ dirs w' = dirs w
  ∧ cluster w' = cluster w ∧ requests w' = requests w.
Proof.
  rewrite extract_data_cases. step.
  destruct (files w !! INPUT_FILE) as [text|] eqn:Hfile;
    [destruct (parse_csv text) as [e0|df] eqn:Hcsv;
       [|destruct (to_json df) as [e1|payload] eqn:Hpay]|];
    intros [= <- <-]; look; (split; [|done]).
  - right; left. by exists text.
  - right; right. exists text, df. rewrite <- !app_assoc. done.
  - by left.
Qed.

(** X13. The transformer pulls from the task named Extract_Data, whoever
    ran the extractor: when the extractor runs under another task id and
    returns normally, and nothing is stored under Extract_Data, the
    transformer that follows raises its "No data received" error and the
    output file is not written. *)
Theorem handoff_needs_task_id kw kw' w text df payload :
  files w !! INPUT_FILE = Some text → parse_csv text = inr df →
  to_json df = inr payload →
  xcom w !! ("Extract_Data", "raw_data") = None →
  task_id (ti kw) ≠ "Extract_Data" →
  fst (extract_data kw w) = inr [Lit "Extracted "; Num (len df); Lit " rows successfully"]
  ∧ xcom (snd (extract_data kw w)) !! (task_id (ti kw), "raw_data") = Some payload
  ∧ fst ((extract_data kw;; transform_data kw') w) = inl no_data
  ∧ files (snd ((extract_data kw;; transform_data kw') w)) = files w.
Proof.
  intros Hfile Hcsv Hpay Hnone Hid. unfold mbind, M_bind.
  rewrite extract_data_cases. step. rewrite Hfile, Hcsv, Hpay. cbn [fst snd]. step.
  split; [done|]. split; [look; apply lookup_insert_eq|].
  match goal with |- context [transform_data kw' ?W] => set (w1 := W) end.
  assert (xcom w1 !! ("Extract_Data", "raw_data") = None) as Hs1.
  { subst w1. look. rewrite lookup_insert_ne; [done|]. by intros [= ?]. }
  rewrite (transform_data_cases kw' w1). step. rewrite Hs1. cbn [fst snd].
  split; [done|]. subst w1. by look.
Qed.

(** X14. With no output file on the worker the loader raises
    [FileNotFoundError] on its path; by then the directory request has gone
    to the cluster, and it is the only request: no upload is sent. *)
Theorem load_to_hdfs_no_file kw w answer c1 :
  files w !! OUTPUT_FILE = None →
  hdfs_makedirs (dirname HDFS_PATH) (cluster w) = (answer, c1) →
  fst (load_to_hdfs kw w) = inl (FileNotFoundError OUTPUT_FILE)
  ∧ requests (snd (load_to_hdfs kw w)) = (requests w ++ [Makedirs (dirname HDFS_PATH)])%list
  ∧ cluster (snd (load_to_hdfs kw w)) = c1
  ∧ last (stdout (snd (load_to_hdfs kw w)))
    = Some [Lit "Error uploading to HDFS: "; Exc (FileNotFoundError OUTPUT_FILE)].
Proof.
  clear parse_csv read_json json_text csv_value csv_row.
  intros Hfile Hmk. rewrite (load_to_hdfs_run kw w answer c1 Hmk). step. rewrite Hfile.
  cbn [fst snd]. look. repeat split; try done. apply last_snoc.
Qed.

(** X15. Whatever the outcome, the loader changes nothing on the worker (no
    file, no directory, no XCom value), and the first request it sends is
    the one for the directory. *)
Theorem load_to_hdfs_footprint kw w :
  let w' := snd (load_to_hdfs kw w) in
  files w' = files w ∧ xcom w' = xcom w ∧ dirs w' = dirs w
  ∧ ∃ later, requests w' = (requests w ++ Makedirs (dirname HDFS_PATH) :: later)%list.
Proof.
  clear parse_csv read_json json_text csv_value csv_row.
  intros w'. subst w'.
  destruct (hdfs_makedirs (dirname HDFS_PATH) (cluster w)) as [answer c1] eqn:Hmk.
  rewrite (load_to_hdfs_run kw w answer c1 Hmk). step.
  destruct (files w !! OUTPUT_FILE) as [data|].
  2: { cbn [snd]. look. repeat split; try done. by eexists. }
  destruct (hdfs_write HDFS_PATH data true c1) as [[e1|[]] c2].
  2: destruct (hdfs_status HDFS_PATH c2) as [[e2|n] c3].
  all: cbn [snd]; look; rewrite <- ?app_assoc; repeat split; try done; by eexists.
Qed.

(** X16. A status request that fails after the upload went through makes
    the loader raise all the same: the file is on the cluster, the three
    requests were sent, and the last line printed is the upload error. *)
Theorem load_to_hdfs_status_fails kw w answer c1 data c2 e c3 :
  hdfs_makedirs (dirname HDFS_PATH) (cluster w) = (answer, c1) →
  files w !! OUTPUT_FILE = Some data →
  hdfs_write HDFS_PATH data true c1 = (inr tt, c2) →
  hdfs_status HDFS_PATH c2 = (inl e, c3) →
  fst (load_to_hdfs kw w) = inl e
  ∧ cluster (snd (load_to_hdfs kw w)) = c3
  ∧ requests (snd (load_to_hdfs kw w))
    = (requests w ++ [Makedirs (dirname HDFS_PATH); Upload HDFS_PATH data true;
                      Status HDFS_PATH])%list
  ∧ [Lit "Successfully uploaded to HDFS: "; Lit HDFS_PATH]
      ∈ stdout (snd (load_to_hdfs kw w))
  ∧ last (stdout (snd (load_to_hdfs kw w))) = Some [Lit "Error uploading to HDFS: "; Exc e].
Proof.
  clear parse_csv read_json json_text csv_value csv_row.
  intros Hmk Hfile Hwr Hst. rewrite (load_to_hdfs_run kw w answer c1 Hmk). step.
  rewrite Hfile, Hwr, Hst. cbn [fst snd]. look.
  repeat split; try done; [by rewrite <- !app_assoc | set_solver | apply last_snoc].
Qed.

(** X17. When the output file is there and the cluster accepts the upload
    and answers the status request, the loader returns normally after
    exactly three requests: the directory, the upload of the file's content
    to [HDFS_PATH] with overwriting, the status; the size it prints last is
    the one the cluster reported. *)
Theorem load_to_hdfs_trace kw w answer c1 data c2 n c3 :
  hdfs_makedirs (dirname HDFS_PATH) (cluster w) = (answer, c1) →
  files w !! OUTPUT_FILE = Some data →
  hdfs_write HDFS_PATH data true c1 = (inr tt, c2) →
  hdfs_status HDFS_PATH c2 = (inr n, c3) →
  fst (load_to_hdfs kw w) = inr [Lit "Loaded data to HDFS: "; Lit HDFS_PATH]
  ∧ cluster (snd (load_to_hdfs kw w)) = c3
  ∧ requests (snd (load_to_hdfs kw w))
    = (requests w ++ [Makedirs (dirname HDFS_PATH); Upload HDFS_PATH data true;
                      Status HDFS_PATH])%list
  ∧ last (stdout (snd (load_to_hdfs kw w)))
    = Some [Lit "File size in HDFS: "; Num n; Lit " bytes"].
Proof.
  clear parse_csv read_json json_text csv_value csv_row.
  intros Hmk Hfile Hwr Hst. rewrite (load_to_hdfs_run kw w answer c1 Hmk). step.
  rewrite Hfile, Hwr, Hst. cbn [fst snd]. look.
  repeat split; try done; [by rewrite <- !app_assoc | apply last_snoc].
Qed.

(** ** The run as a whole *)

Lemma extract_data_keeps kw w :
  cluster (snd (extract_data kw w)) = cluster w
  ∧ requests (snd (extract_data kw w)) = requests w
  ∧ files (snd (extract_data kw w)) = files w.
Proof.
  rewrite extract_data_cases. step.
  destruct (files w !! INPUT_FILE) as [text|];
    [destruct (parse_csv text) as [e|df]; [|destruct (to_json df)]|];
    cbn [snd]; by look.
Qed.

Lemma transform_data_keeps kw w :
  cluster (snd (transform_data kw w)) = cluster w
  ∧ requests (snd (transform_data kw w)) = requests w.
Proof. transform_cases w Hs Hne Hjson Hpost Hout Hpay; cbn [snd]; by look. Qed.

(** X19. The loader comes last: when extraction followed by transformation
    raises, the whole run raises the same exception in the same world, and
    nothing has been sent to the cluster. *)
Theorem dag_run_loader_last w e w1 :
  (execute extract_task;; execute transform_task) w = (inl e, w1) →
  dag_run w = (inl e, w1) ∧ requests w1 = requests w ∧ cluster w1 = cluster w.
Proof.
  unfold dag_run, mbind, M_bind.
  change (execute extract_task) with (extract_data (mk_kwargs (mk_ti "Extract_Data"))).
  change (execute transform_task) with (transform_data (mk_kwargs (mk_ti "Transform_Data"))).
  pose proof (extract_data_keeps (mk_kwargs (mk_ti "Extract_Data")) w) as (Hc1 & Hr1 & _).
  destruct (extract_data _ w) as [[e1|m1] w1'] eqn:Hex; cbn [snd] in *.
  - by intros [= <- <-].
  - pose proof (transform_data_keeps (mk_kwargs (mk_ti "Transform_Data")) w1') as (Hc2 & Hr2).
    destruct (transform_data _ w1') as [[e2|m2] w2]; cbn [snd] in *; intros [= <- <-].
    split; [done|]. split; congruence.
Qed.

(** X20. The three Python tasks in a row, each going through: the input
    file parses, [to_json] accepts the parsed frame, the payload decodes,
    the cleaning steps give [out], [to_json] accepts [out], and the cluster
    accepts the upload and answers the status request.  Then the loader
    returns normally, what was uploaded to [HDFS_PATH] is the CSV text of
    [out] (the text left in the output file), and the cluster received the
    directory, upload and status requests in this order and nothing else.
    This is the state in which the two Hive tasks of the DAG start. *)
Theorem python_tasks_upload_cleaned w text df payload df' out payload' answer c1 c2 n c3 :
  files w !! INPUT_FILE = Some text → parse_csv text = inr df →
  to_json df = inr payload → payload ≠ "" → read_json payload = inr df' →
  cleaned df' = inr out → to_json out = inr payload' →
  hdfs_makedirs (dirname HDFS_PATH) (cluster w) = (answer, c1) →
  hdfs_write HDFS_PATH (csv_text out true false) true c1 = (inr tt, c2) →
  hdfs_status HDFS_PATH c2 = (inr n, c3) →
  fst (python_tasks w) = inr [Lit "Loaded data to HDFS: "; Lit HDFS_PATH]
  ∧ requests (snd (python_tasks w))
    = (requests w ++ [Makedirs (dirname HDFS_PATH);
                      Upload HDFS_PATH (csv_text out true false) true;
                      Status HDFS_PATH])%list
  ∧ cluster (snd (python_tasks w)) = c3
  ∧ files (snd (python_tasks w)) !! OUTPUT_FILE = Some (csv_text out true false)
  ∧ xcom (snd (python_tasks w)) !! ("Transform_Data", "transformed_data") = Some payload'.
Proof.
  intros Hfile Hcsv Hpay Hne Hjson Hout Hpay' Hmk Hwr Hst.
  destruct (extract_hands_over w text df payload df' Hfile Hcsv Hpay Hne Hjson)
    as (w1 & Hrun1 & Hdf' & _ & Hc1 & Hr1).
  pose proof (transform_data_keeps (mk_kwargs (mk_ti "Transform_Data")) w1) as (Hc2 & Hr2).
  destruct (transform_data_run (mk_kwargs (mk_ti "Transform_Data")) w1 df' out payload'
              Hdf' Hout Hpay') as (w2 & Hrun2 & Hfiles2 & Hxcom2).
  rewrite Hrun2 in Hc2, Hr2. cbn [snd] in *.
  assert (hdfs_makedirs (dirname HDFS_PATH) (cluster w2) = (answer, c1)) as Hmk2
    by congruence.
  assert (files w2 !! OUTPUT_FILE = Some (csv_text out true false)) as Hfile2
    by (rewrite Hfiles2; apply lookup_insert_eq).
  cbn [task_id ti] in Hxcom2.
  unfold python_tasks, mbind, M_bind. rewrite Hrun1. step.
  change (execute transform_task) with (transform_data (mk_kwargs (mk_ti "Transform_Data"))).
  rewrite Hrun2. step.
  change (execute load_hdfs_task) with (load_to_hdfs (mk_kwargs (mk_ti "Load_To_HDFS"))).
  rewrite (load_to_hdfs_run _ w2 answer c1 Hmk2). step.
  rewrite Hfile2, Hwr, Hst. cbn [fst snd]. look.
  rewrite Hr2, Hr1, Hfiles2, Hxcom2, !lookup_insert_eq, <- !app_assoc. done.
Qed.

(** X22. The loader looks at nothing but the output file and the cluster:
    from two worlds with the same content of the output file and the same
    cluster it gives the same outcome and leaves the same cluster, whatever
    the XCom store, the other files and the task instance are.  (It uploads
    the file that is there, whoever wrote it.) *)
Theorem load_to_hdfs_reads_file_only kw1 kw2 w1 w2 :
  files w1 !! OUTPUT_FILE = files w2 !! OUTPUT_FILE → cluster w1 = cluster w2 →
  fst (load_to_hdfs kw1 w1) = fst (load_to_hdfs kw2 w2)
  ∧ cluster (snd (load_to_hdfs kw1 w1)) = cluster (snd (load_to_hdfs kw2 w2)).
Proof.
  clear parse_csv read_json json_text csv_value csv_row.
  intros Hfile Hcluster.
  destruct (hdfs_makedirs (dirname HDFS_PATH) (cluster w1)) as [answer c1] eqn:Hmk1.
  assert (hdfs_makedirs (dirname HDFS_PATH) (cluster w2) = (answer, c1)) as Hmk2
    by congruence.
  rewrite (load_to_hdfs_run kw1 w1 answer c1 Hmk1), (load_to_hdfs_run kw2 w2 answer c1 Hmk2).
  step. rewrite Hfile.
  destruct (files w2 !! OUTPUT_FILE) as [data|]; [|cbn [fst snd]; by look].
  destruct (hdfs_write HDFS_PATH data true c1) as [[e1|[]] c2]; [cbn [fst snd]; by look|].
  destruct (hdfs_status HDFS_PATH c2) as [[e2|n] c3]; cbn [fst snd]; by look.
Qed.

End Pipeline.



(** ** The sample runs *)

Local Abbreviation sample_transform :=
  (transform_data sample_to_json sample_read_json sample_csv_value sample_csv_row
     (gmap string string) sample_kwargs).
Local Abbreviation sample_load write :=
  (load_to_hdfs (gmap string string) sample_makedirs write sample_status sample_kwargs).
Local Abbreviation sample_hands_over :=
  (hands_over sample_read_json (gmap string string)).
Local Abbreviation sample_completes :=
  (completes sample_to_json sample_read_json sample_csv_value sample_csv_row
     (gmap string string) sample_kwargs).

(** The scenario of the specification: five rows, one without a town, a
    Residential Type column; four rows come out, numbered 1 to 4. *)
Example sample_sales_run :
  cleaned sample_sales = inr sample_sales_cleaned
  ∧ fst (sample_transform (sample_world (Some "sales")))
    = inr [Lit "Transformed "; Num 4; Lit " rows successfully"].
Proof. split; vm_compute; reflexivity. Qed.

Lemma sample_payload name df :
  sample_payloads !! name = Some df → name ≠ "" →
  sample_hands_over (sample_world (Some name)) df.
Proof.
  intros Hname Hne. exists name. split; [apply lookup_singleton_eq|]. split; [done|].
  unfold sample_read_json. by rewrite Hname.
Qed.

Lemma absent (x : string) (l : list string) : bool_decide (x ∉ l) = true → x ∉ l.
Proof. apply bool_decide_eq_true_1. Qed.

Lemma transform_row_count_witness :
  sample_hands_over (sample_world (Some "sales")) sample_sales
  ∧ ("SaleID" ∉ columns sample_sales)
  ∧ ∃ out, cleaned sample_sales = inr out ∧ len out = 5 - 1.
Proof.
  assert (sample_hands_over (sample_world (Some "sales")) sample_sales) as Hdf
    by (apply sample_payload; [reflexivity | discriminate]).
  assert ("SaleID" ∉ columns sample_sales) as Hfresh by (apply absent; reflexivity).
  split; [exact Hdf|]. split; [exact Hfresh|].
  destruct (transform_row_count sample_to_json sample_read_json sample_csv_value
              sample_csv_row _ sample_kwargs _ _ Hdf Hfresh) as (out & Hout & _ & Hlen & _).
  exists out. split; [exact Hout | exact Hlen].
Defined.

Lemma sale_id_sequential_witness :
  sample_hands_over (sample_world (Some "sales")) sample_sales
  ∧ ("SaleID" ∉ columns sample_sales)
  ∧ ∃ post out, filtered sample_sales = inr post ∧ cleaned sample_sales = inr out
      ∧ column "SaleID" out = (λ i, Some (Int i)) <$> seqZ 1 (len post)
      ∧ strip ["SaleID"] (columns out) <$> rows out = rows post.
Proof.
  assert (sample_hands_over (sample_world (Some "sales")) sample_sales) as Hdf
    by (apply sample_payload; [reflexivity | discriminate]).
  assert ("SaleID" ∉ columns sample_sales) as Hfresh by (apply absent; reflexivity).
  split; [exact Hdf|]. split; [exact Hfresh|].
  destruct (sale_id_sequential sample_to_json sample_read_json sample_csv_value
              sample_csv_row _ sample_kwargs _ _ Hdf Hfresh)
    as (post & out & Hpost & Hout & _ & _ & Hids & _ & Hrows).
  exists post, out. repeat split; assumption.
Defined.


Lemma transform_keeps_values_witness :
  sample_hands_over (sample_world (Some "sales")) sample_sales
  ∧ ("SaleID" ∉ columns sample_sales)
  ∧ ∃ out, cleaned sample_sales = inr out
      ∧ (strip ["SaleID"] (columns out) <$> rows out)
          `sublist_of` (strip ["Residential Type"] (columns sample_sales) <$> rows sample_sales).
Proof.
  assert (sample_hands_over (sample_world (Some "sales")) sample_sales) as Hdf
    by (apply sample_payload; [reflexivity | discriminate]).
  assert ("SaleID" ∉ columns sample_sales) as Hfresh by (apply absent; reflexivity).
  split; [exact Hdf|]. split; [exact Hfresh|].
  destruct (transform_keeps_values sample_to_json sample_read_json sample_csv_value
              sample_csv_row _ sample_kwargs _ _ Hdf Hfresh) as (out & Hout & _ & Hsub).
  exists out. split; [exact Hout | exact Hsub].
Defined.

Lemma nodup `{EqDecision A} (l : list A) : bool_decide (NoDup l) = true → NoDup l.
Proof. apply bool_decide_eq_true_1. Qed.


(** A second run, on the output of the first, stops at the insertion of
    SaleID. *)
Lemma transform_twice_fails :
  cleaned sample_clean = inr sample_clean_cleaned
  ∧ fst (sample_transform (sample_world (Some "clean")))
    = inr [Lit "Transformed "; Num 2; Lit " rows successfully"]
  ∧ sample_read_json "cleaned" = inr sample_clean_cleaned
  ∧ cleaned sample_clean_cleaned
    = inl (ValueError "cannot insert SaleID, already exists")
  ∧ fst (sample_transform (sample_world (Some "cleaned")))
    = inl (ValueError "cannot insert SaleID, already exists")
  ∧ files (snd (sample_transform (sample_world (Some "cleaned")))) !! OUTPUT_FILE = None.
Proof. repeat split; vm_compute; reflexivity. Qed.

Lemma transform_twice_witness :
  ("Residential Type" ∉ columns sample_clean)
  ∧ ("SaleID" ∉ columns sample_clean)
  ∧ Forall (λ r, has_na r = false) (rows sample_clean)
  ∧ ∃ out, cleaned sample_clean = inr out
      ∧ column "SaleID" out = (λ i, Some (Int i)) <$> seqZ 1 (len sample_clean)
      ∧ filtered out = inr out
      ∧ cleaned out = inl (ValueError "cannot insert SaleID, already exists")
      ∧ match df_drop ["SaleID"] out with
        | inr df' => cleaned df'
        | inl e => inl e
        end = inr out.
Proof.
  assert ("Residential Type" ∉ columns sample_clean) as Hrt by (apply absent; reflexivity).
  assert ("SaleID" ∉ columns sample_clean) as Hfresh by (apply absent; reflexivity).
  assert (Forall (λ r, has_na r = false) (rows sample_clean)) as Hfull
    by (repeat constructor).
  split; [exact Hrt|]. split; [exact Hfresh|]. split; [exact Hfull|].
  destruct (transform_twice sample_to_json sample_read_json sample_csv_value sample_csv_row
              (gmap string string) _ Hrt Hfresh Hfull)
    as (out & Hout & _ & Hids & _ & Hsame & Hagain & _ & Hback).
  exists out. repeat split; assumption.
Defined.

Lemma load_error_handling_witness :
  sample_makedirs (dirname HDFS_PATH) (cluster sample_loaded)
  = (inl (Raised "HdfsError" "mkdirs refused"), ∅)
  ∧ fst (sample_load sample_write sample_loaded)
    = inr [Lit "Loaded data to HDFS: "; Lit HDFS_PATH]
  ∧ [Lit "Directory "; Lit (dirname HDFS_PATH); Lit " may already exist: ";
     Exc (Raised "HdfsError" "mkdirs refused")]
      ∈ stdout (snd (sample_load sample_write sample_loaded))
  ∧ fst (sample_load sample_refuse sample_loaded) = inl (Raised "HdfsError" "write refused").
Proof.
  assert (sample_makedirs (dirname HDFS_PATH) (cluster sample_loaded)
          = (inl (Raised "HdfsError" "mkdirs refused"), ∅)) as Hmk by reflexivity.
  destruct (load_error_handling _ sample_makedirs sample_write sample_status sample_kwargs
              sample_loaded _ _ Hmk) as (Hout & Hlog & _).
  destruct (load_error_handling _ sample_makedirs sample_refuse sample_status sample_kwargs
              sample_loaded _ _ Hmk) as (_ & _ & _ & Hraise).
  split; [exact Hmk|]. split; [exact Hout|]. split; [exact (Hlog _ eq_refl)|].
  exact (proj1 (Hraise "SaleID,Town" _ ∅ eq_refl eq_refl)).
Defined.

Lemma output_file_layout_witness :
  sample_transform (sample_world (Some "sales"))
  = (inr [Lit "Transformed "; Num 4; Lit " rows successfully"],
     snd (sample_transform (sample_world (Some "sales"))))
  ∧ ∃ df post out, sample_hands_over (sample_world (Some "sales")) df
      ∧ filtered df = inr post ∧ cleaned df = inr out
      ∧ files (snd (sample_transform (sample_world (Some "sales")))) !! OUTPUT_FILE
        = Some (sample_csv_row ("SaleID" :: columns post)
                +:+ String.concat ""
                      (zip_with (λ id r, sample_csv_row (sample_csv_value (Int id)
                                                         :: (sample_csv_value <$> cells r)))
                         (seqZ 1 (len post)) (rows post))).
Proof.
  assert (sample_transform (sample_world (Some "sales"))
          = (inr [Lit "Transformed "; Num 4; Lit " rows successfully"],
             snd (sample_transform (sample_world (Some "sales"))))) as Hrun
    by (vm_compute; reflexivity).
  split; [exact Hrun|].
  destruct (output_file_layout sample_to_json sample_read_json sample_csv_value sample_csv_row
              _ sample_kwargs _ _ _ Hrun) as (df & post & out & Hdf & Hpost & Hout & _ & _ & Hfile).
  exists df, post, out. split; [exact Hdf|]. split; [exact Hpost|]. split; [exact Hout|].
  exact Hfile.
Defined.


(** ** More sample runs *)

Local Abbreviation sample_extract :=
  (extract_data sample_parse_csv sample_named_json (gmap string string)).
Local Abbreviation sample_named_transform :=
  (transform_data sample_named_json sample_read_json sample_csv_value sample_csv_row
     (gmap string string)).
Local Abbreviation sample_dag :=
  (dag_run sample_parse_csv sample_named_json sample_read_json sample_csv_value
     sample_csv_row (gmap string string) sample_makedirs sample_write sample_status).
Local Abbreviation sample_python_tasks :=
  (python_tasks sample_parse_csv sample_named_json sample_read_json sample_csv_value
     sample_csv_row (gmap string string) sample_makedirs sample_write sample_status).
Local Abbreviation sample_csv :=
  (csv_text sample_csv_value sample_csv_row sample_sales_cleaned true false).


Lemma transform_empty_string_payload_witness :
  xcom (sample_world (Some "")) !! ("Extract_Data", "raw_data") = Some ""
  ∧ sample_transform (sample_world (Some ""))
    = (inl no_data, printed [Lit "Starting data transformation..."] (sample_world (Some ""))).
Proof.
  split; [reflexivity|].
  exact (transform_empty_string_payload sample_to_json sample_read_json sample_csv_value
           sample_csv_row _ sample_kwargs (sample_world (Some "")) eq_refl).
Defined.

Lemma transform_data_report_witness :
  sample_hands_over (sample_world (Some "sales")) sample_sales
  ∧ cleaned sample_sales = inr sample_sales_cleaned
  ∧ stdout (snd (sample_transform (sample_world (Some "sales"))))
    = [ [Lit "Starting data transformation..."];
        [Lit "Initial shape: "; Shape (5, 4)];
        [Lit "Dropped 'Residential Type' column"];
        [Lit "Dropped "; Num 1; Lit " rows with null values"];
        [Lit "Added SaleID column"];
        [Lit "Final shape: "; Shape (4, 4)];
        [Lit "Columns: "; Names ["SaleID"; "List_Year"; "Town"; "Sale_Amount"]];
        [Lit (LF +:+ "First 5 rows:" +:+ LF); Frame sample_sales_cleaned];
        [Lit "Saved transformed data to "; Lit OUTPUT_FILE] ].
Proof.
  assert (sample_hands_over (sample_world (Some "sales")) sample_sales) as Hdf
    by (apply sample_payload; [reflexivity | discriminate]).
  assert (cleaned sample_sales = inr sample_sales_cleaned) as Hout by reflexivity.
  split; [exact Hdf|]. split; [exact Hout|].
  exact (transform_data_report sample_to_json sample_read_json sample_csv_value
           sample_csv_row _ sample_kwargs _ _ _ Hdf Hout).
Defined.


Lemma cleaned_no_nulls_witness :
  cleaned sample_sales = inr sample_sales_cleaned
  ∧ df_dropna sample_sales_cleaned = sample_sales_cleaned.
Proof.
  assert (cleaned sample_sales = inr sample_sales_cleaned) as Hout by reflexivity.
  split; [exact Hout|]. exact (proj2 (cleaned_no_nulls _ _ Hout)).
Defined.

Lemma cleaned_ignores_residential_type_witness :
  strip ["Residential Type"] (columns sample_sales) <$> rows sample_sales
  = strip ["Residential Type"] (columns sample_sales_retyped) <$> rows sample_sales_retyped
  ∧ cleaned sample_sales = cleaned sample_sales_retyped.
Proof.
  assert (strip ["Residential Type"] (columns sample_sales) <$> rows sample_sales
          = strip ["Residential Type"] (columns sample_sales_retyped)
              <$> rows sample_sales_retyped) as Hrows by reflexivity.
  split; [exact Hrows|].
  exact (cleaned_ignores_residential_type sample_sales sample_sales_retyped eq_refl Hrows).
Defined.

Lemma cleaned_rectangular_witness :
  rectangular sample_sales
  ∧ cleaned sample_sales = inr sample_sales_cleaned
  ∧ rectangular sample_sales_cleaned.
Proof.
  assert (rectangular sample_sales) as Hrect by (repeat constructor).
  assert (cleaned sample_sales = inr sample_sales_cleaned) as Hout by reflexivity.
  split; [exact Hrect|]. split; [exact Hout|].
  exact (cleaned_rectangular _ _ Hrect Hout).
Defined.


Lemma extract_data_failure_witness :
  extract_data sample_parse_repeated sample_to_json (gmap string string) sample_kwargs
    sample_repeated_input
  = (inl (ValueError "DataFrame index must be unique for orient='columns'."),
     snd (extract_data sample_parse_repeated sample_to_json (gmap string string) sample_kwargs
            sample_repeated_input))
  ∧ xcom (snd (extract_data sample_parse_repeated sample_to_json (gmap string string)
                 sample_kwargs sample_repeated_input)) = ∅
  ∧ stdout (snd (extract_data sample_parse_repeated sample_to_json (gmap string string)
                   sample_kwargs sample_repeated_input))
    = [ [Lit "Starting data extraction..."];
        [Lit "Extracted "; Num 2; Lit " rows"];
        [Lit "Columns: "; Names ["Town"; "Sale_Amount"]] ].
Proof.
  assert (extract_data sample_parse_repeated sample_to_json (gmap string string) sample_kwargs
            sample_repeated_input
          = (inl (ValueError "DataFrame index must be unique for orient='columns'."),
             snd (extract_data sample_parse_repeated sample_to_json (gmap string string)
                    sample_kwargs sample_repeated_input))) as Hrun
    by (vm_compute; reflexivity).
  split; [exact Hrun|].
  destruct (extract_data_failure sample_parse_repeated sample_to_json _ sample_kwargs _ _ _ Hrun)
    as (_ & Hxcom & _).
  split; [exact Hxcom|]. vm_compute; reflexivity.
Defined.

Lemma extract_then_transform_witness :
  files sample_input !! INPUT_FILE = Some "List_Year,Town,Sale_Amount,Residential Type"
  ∧ to_json sample_named_json sample_sales = inr "sales"
  ∧ sample_read_json "sales" = inr sample_sales
  ∧ cleaned sample_sales = inr sample_sales_cleaned
  ∧ to_json sample_named_json sample_sales_cleaned = inr "sales"
  ∧ ∃ w' : world (gmap string string),
      files w' !! OUTPUT_FILE = Some sample_csv
      ∧ xcom w' !! ("Transform_Data", "transformed_data") = Some "sales".
Proof.
  assert (files sample_input !! INPUT_FILE
          = Some "List_Year,Town,Sale_Amount,Residential Type") as Hfile by reflexivity.
  assert (to_json sample_named_json sample_sales = inr "sales") as Hpay by reflexivity.
  assert (to_json sample_named_json sample_sales_cleaned = inr "sales") as Hpay'
    by reflexivity.
  split; [exact Hfile|]. split; [exact Hpay|]. split; [reflexivity|]. split; [reflexivity|].
  split; [exact Hpay'|].
  destruct (extract_then_transform sample_parse_csv sample_named_json sample_read_json
              sample_csv_value sample_csv_row _ sample_input _ sample_sales "sales"
              sample_sales sample_sales_cleaned "sales"
              Hfile eq_refl Hpay ltac:(discriminate) eq_refl eq_refl Hpay')
    as (w' & _ & Hcsv & Hxcom).
  exists w'. split; [exact Hcsv | exact Hxcom].
Defined.

Lemma handoff_needs_task_id_witness :
  task_id (ti (mk_kwargs (mk_ti "Extract"))) ≠ "Extract_Data"
  ∧ to_json sample_named_json sample_sales = inr "sales"
  ∧ fst (M_bind (gmap string string) _ _
           (λ _, sample_named_transform sample_kwargs)
           (sample_extract (mk_kwargs (mk_ti "Extract"))) sample_input)
    = inl no_data.
Proof.
  assert (task_id (ti (mk_kwargs (mk_ti "Extract"))) ≠ "Extract_Data") as Hid
    by discriminate.
  assert (to_json sample_named_json sample_sales = inr "sales") as Hpay by reflexivity.
  split; [exact Hid|]. split; [exact Hpay|].
  exact (proj1 (proj2 (proj2
           (handoff_needs_task_id sample_parse_csv sample_named_json sample_read_json
              sample_csv_value sample_csv_row _ (mk_kwargs (mk_ti "Extract"))
              sample_kwargs sample_input _ sample_sales "sales"
              eq_refl eq_refl Hpay eq_refl Hid)))).
Defined.

Lemma load_to_hdfs_no_file_witness :
  files (sample_world None) !! OUTPUT_FILE = None
  ∧ fst (sample_load sample_write (sample_world None)) = inl (FileNotFoundError OUTPUT_FILE)
  ∧ requests (snd (sample_load sample_write (sample_world None)))
    = [Makedirs (dirname HDFS_PATH)].
Proof.
  split; [reflexivity|].
  destruct (load_to_hdfs_no_file _ sample_makedirs sample_write sample_status sample_kwargs
              (sample_world None) _ _ eq_refl eq_refl) as (Hout & Hreq & _).
  split; [exact Hout | exact Hreq].
Defined.

Lemma load_to_hdfs_status_fails_witness :
  sample_write HDFS_PATH "SaleID,Town" true ∅ = (inr tt, {[ HDFS_PATH := "SaleID,Town" ]})
  ∧ fst (load_to_hdfs (gmap string string) sample_makedirs sample_write sample_status_down
           sample_kwargs sample_loaded)
    = inl (Raised "HdfsError" "status unavailable")
  ∧ cluster (snd (load_to_hdfs (gmap string string) sample_makedirs sample_write
                    sample_status_down sample_kwargs sample_loaded))
    = {[ HDFS_PATH := "SaleID,Town" ]}.
Proof.
  assert (sample_write HDFS_PATH "SaleID,Town" true ∅
          = (inr tt, {[ HDFS_PATH := "SaleID,Town" ]})) as Hwr by reflexivity.
  split; [exact Hwr|].
  destruct (load_to_hdfs_status_fails _ sample_makedirs sample_write sample_status_down
              sample_kwargs sample_loaded _ _ _ _ _ _ eq_refl eq_refl Hwr eq_refl)
    as (Hout & Hc & _).
  split; [exact Hout | exact Hc].
Defined.

Lemma load_to_hdfs_trace_witness :
  sample_status HDFS_PATH {[ HDFS_PATH := "SaleID,Town" ]}
  = (inr 11, {[ HDFS_PATH := "SaleID,Town" ]})
  ∧ requests (snd (sample_load sample_write sample_loaded))
    = [Makedirs (dirname HDFS_PATH); Upload HDFS_PATH "SaleID,Town" true; Status HDFS_PATH]
  ∧ last (stdout (snd (sample_load sample_write sample_loaded)))
    = Some [Lit "File size in HDFS: "; Num 11; Lit " bytes"].
Proof.
  assert (sample_status HDFS_PATH {[ HDFS_PATH := "SaleID,Town" ]}
          = (inr 11, {[ HDFS_PATH := "SaleID,Town" ]})) as Hst by reflexivity.
  split; [exact Hst|].
  destruct (load_to_hdfs_trace _ sample_makedirs sample_write sample_status sample_kwargs
              sample_loaded _ _ _ _ _ _ eq_refl eq_refl eq_refl Hst) as (_ & _ & Hreq & Hlast).
  split; [exact Hreq | exact Hlast].
Defined.

Lemma dag_run_no_input_witness :
  files (sample_world None) !! INPUT_FILE = None
  ∧ ∃ w', sample_dag (sample_world None) = (inl (FileNotFoundError INPUT_FILE), w')
      ∧ requests w' = requests (sample_world None).
Proof.
  split; [reflexivity|].
  destruct (dag_run_no_input sample_parse_csv sample_named_json sample_read_json
              sample_csv_value sample_csv_row _ sample_makedirs sample_write sample_status
              (sample_world None) eq_refl) as (w' & Hrun & _ & _ & Hreq).
  exists w'. split; [exact Hrun | exact Hreq].
Defined.

Lemma dag_run_loader_last_witness :
  M_bind (gmap string string) _ _
    (λ _, execute (gmap string string)
            (transform_task sample_named_json sample_read_json sample_csv_value
               sample_csv_row (gmap string string)))
    (execute (gmap string string)
       (extract_task sample_parse_csv sample_named_json (gmap string string)))
    (sample_world None)
  = (inl (FileNotFoundError INPUT_FILE),
     printed [Lit "Starting data extraction..."] (sample_world None))
  ∧ sample_dag (sample_world None)
    = (inl (FileNotFoundError INPUT_FILE),
       printed [Lit "Starting data extraction..."] (sample_world None)).
Proof.
  assert (M_bind (gmap string string) _ _
            (λ _, execute (gmap string string)
                    (transform_task sample_named_json sample_read_json sample_csv_value
                       sample_csv_row (gmap string string)))
            (execute (gmap string string)
               (extract_task sample_parse_csv sample_named_json (gmap string string)))
            (sample_world None)
          = (inl (FileNotFoundError INPUT_FILE),
             printed [Lit "Starting data extraction..."] (sample_world None))) as Hrun
    by reflexivity.
  split; [exact Hrun|].
  exact (proj1 (dag_run_loader_last sample_parse_csv sample_named_json sample_read_json
                  sample_csv_value sample_csv_row _ sample_makedirs sample_write
                  sample_status (sample_world None) _ _ Hrun)).
Defined.

Lemma python_tasks_upload_cleaned_witness :
  cleaned sample_sales = inr sample_sales_cleaned
  ∧ to_json sample_named_json sample_sales_cleaned = inr "sales"
  ∧ sample_write HDFS_PATH sample_csv true ∅ = (inr tt, {[ HDFS_PATH := sample_csv ]})
  ∧ fst (sample_python_tasks sample_input) = inr [Lit "Loaded data to HDFS: "; Lit HDFS_PATH]
  ∧ requests (snd (sample_python_tasks sample_input))
    = [Makedirs (dirname HDFS_PATH); Upload HDFS_PATH sample_csv true; Status HDFS_PATH]
  ∧ cluster (snd (sample_python_tasks sample_input)) = {[ HDFS_PATH := sample_csv ]}.
Proof.
  assert (cleaned sample_sales = inr sample_sales_cleaned) as Hout by reflexivity.
  assert (to_json sample_named_json sample_sales = inr "sales") as Hpay by reflexivity.
  assert (to_json sample_named_json sample_sales_cleaned = inr "sales") as Hpay'
    by reflexivity.
  assert (sample_write HDFS_PATH sample_csv true ∅ = (inr tt, {[ HDFS_PATH := sample_csv ]}))
    as Hwr by reflexivity.
  assert (sample_status HDFS_PATH {[ HDFS_PATH := sample_csv ]}
          = (inr (Z.of_nat (String.length sample_csv)), {[ HDFS_PATH := sample_csv ]}))
    as Hst by (vm_compute; reflexivity).
  split; [exact Hout|]. split; [exact Hpay'|]. split; [exact Hwr|].
  destruct (python_tasks_upload_cleaned sample_parse_csv sample_named_json sample_read_json
              sample_csv_value sample_csv_row _ sample_makedirs sample_write sample_status
              sample_input _ sample_sales "sales" sample_sales sample_sales_cleaned "sales"
              _ _ _ _ _
              eq_refl eq_refl Hpay ltac:(discriminate) eq_refl Hout Hpay' eq_refl Hwr Hst)
    as (Hrun & Hreq & Hc & _).
  split; [exact Hrun|]. split; [exact Hreq | exact Hc].
Defined.

Lemma dirname_join_witness :
  "e"%char ≠ "/"%char
  ∧ dirname HDFS_PATH = "/user/hive/warehouse/real_estate"
  ∧ dirname OUTPUT_FILE = "/opt/airflow/outputData".
Proof.
  assert ("e"%char ≠ "/"%char) as He by discriminate.
  assert ("a"%char ≠ "/"%char) as Ha by discriminate.
  split; [exact He|]. split.
  - exact (dirname_join "/user/hive/warehouse/real_estat" "e" "real_estate_sales.csv"
             He eq_refl).
  - exact (dirname_join "/opt/airflow/outputDat" "a" "Real_Estate_Sales_Cleaned.csv"
             Ha eq_refl).
Defined.

Lemma load_to_hdfs_reads_file_only_witness :
  files sample_loaded !! OUTPUT_FILE
  = files (written OUTPUT_FILE "SaleID,Town" (sample_world (Some "sales"))) !! OUTPUT_FILE
  ∧ fst (sample_load sample_write sample_loaded)
    = fst (load_to_hdfs (gmap string string) sample_makedirs sample_write sample_status
             (mk_kwargs (mk_ti "Load_To_HDFS"))
             (written OUTPUT_FILE "SaleID,Town" (sample_world (Some "sales")))).
Proof.
  assert (files sample_loaded !! OUTPUT_FILE
          = files (written OUTPUT_FILE "SaleID,Town" (sample_world (Some "sales")))
              !! OUTPUT_FILE) as Hfile by reflexivity.
  split; [exact Hfile|].
  exact (proj1 (load_to_hdfs_reads_file_only _ sample_makedirs sample_write sample_status
                  sample_kwargs (mk_kwargs (mk_ti "Load_To_HDFS")) sample_loaded
                  (written OUTPUT_FILE "SaleID,Town" (sample_world (Some "sales")))
                  Hfile eq_refl)).
Defined.

(** ** The hand-over through pandas's codec *)

Local Abbreviation pandas_to_json := (to_json pandas_json_text).
Local Abbreviation pandas_hands_over sorted :=
  (hands_over (pandas_read_json sorted) (gmap string string)).


(** With [sorted], eleven rows come back in the order of their labels as
    texts: the row labelled 10 comes third. *)
Example handoff_sorted_labels :
  label <$> rows sample_eleven = seqZ 0 11
  ∧ ∃ s back, pandas_to_json sample_eleven = inr s
      ∧ pandas_read_json false s = inr sample_eleven
      ∧ pandas_read_json true s = inr back
      ∧ label <$> rows back = [0; 1; 10; 2; 3; 4; 5; 6; 7; 8; 9].
Proof.
  split; [reflexivity|].
  destruct (pandas_to_json sample_eleven) as [e|s] eqn:Hs; [vm_compute in Hs; discriminate|].
  vm_compute in Hs. injection Hs as <-.
  eexists _, _. split; [reflexivity|]. split; [vm_compute; reflexivity|].
  split; vm_compute; reflexivity.
Qed.



Lemma transform_data_unique_labels_witness :
  sample_hands_over (sample_world (Some "sales")) sample_sales
  ∧ ("SaleID" ∉ columns sample_sales)
  ∧ NoDup (label <$> rows sample_sales)
  ∧ NoDup (columns sample_sales)
  ∧ ∃ out, cleaned sample_sales = inr out ∧ sample_completes (sample_world (Some "sales")) out.
Proof.
  assert (sample_hands_over (sample_world (Some "sales")) sample_sales) as Hdf
    by (apply sample_payload; [reflexivity | discriminate]).
  assert ("SaleID" ∉ columns sample_sales) as Hfresh by (apply absent; reflexivity).
  assert (NoDup (label <$> rows sample_sales)) as Hlabels by (apply nodup; reflexivity).
  assert (NoDup (columns sample_sales)) as Hcols by (apply nodup; reflexivity).
  split; [exact Hdf|]. split; [exact Hfresh|]. split; [exact Hlabels|]. split; [exact Hcols|].
  destruct (transform_data_unique_labels sample_to_json sample_read_json sample_csv_value
              sample_csv_row _ sample_kwargs _ _ Hdf Hfresh Hlabels Hcols)
    as (out & Hout & _ & _ & _ & Hdone).
  exists out. split; [exact Hout|]. exact (Hdone _ eq_refl).
Defined.

(** The payload with the columns 1 and 01, which [read_json] takes for the
    same number: the header line is written, and [to_json] refuses the
    frame for its columns. *)
Example transform_data_repeated_columns :
  pandas_read_json false sample_ones_json = inr {| columns := ["1"; "1"]; rows := [] |}
  ∧ fst (transform_data pandas_json_text (pandas_read_json false) sample_csv_value
           sample_csv_row (gmap string string) sample_kwargs
           (sample_world (Some sample_ones_json)))
    = inl (ValueError "DataFrame columns must be unique for orient='columns'.")
  ∧ files (snd (transform_data pandas_json_text (pandas_read_json false) sample_csv_value
                  sample_csv_row (gmap string string) sample_kwargs
                  (sample_world (Some sample_ones_json)))) !! OUTPUT_FILE
    = Some ("SaleID,1,1" +:+ LF).
Proof. repeat split; vm_compute; reflexivity. Qed.
